(** * Feedback-Collection-Platform: submission validation and summary aggregation

    A shallow embedding of the Express/Mongoose back end:
    - [routes/responses.js]: [POST /api/responses] ([submit]),
      [GET /api/responses/form/:formId/summary] ([summarize], [getSummary]),
      [GET /api/responses/:id] ([getResponse]) and the rows and header of
      [GET /api/responses/form/:formId/export] ([csvRow], [exportData]);
    - [routes/forms.js]: [POST /api/forms] ([createForm]),
      [PUT /api/forms/:id] ([updateForm]), [DELETE /api/forms/:id]
      ([deleteForm]) and [GET /api/forms/public/:publicUrl] ([getPublicForm]);
    - [models/Form.js]: the [pre('save')] hook ([preSave]);
    - [models/Response.js]: the stored record and its [submitterEmail] setters;
    - the pages that call them: [onSubmit] of [PublicForm.tsx], and of
      [CreateForm.tsx] and [EditForm.tsx] ([createSubmit], [editSubmit]).

    Strings are [string]; one [ascii] stands for one character (code points
    0..255).  Object ids are the strings [toString()] gives.  An answer value
    is a string, as the client's [SubmitResponseData] declares it. *)

From Stdlib Require Import String Ascii List Bool Arith NArith Lia Permutation.
From Stdlib Require Import DecimalString.
Import ListNotations.
Open Scope string_scope.
Open Scope list_scope.

(* ================================================================== *)
(** ** JavaScript primitives used by the routes *)

Module Js.

(** [Array.prototype.includes] on an array of strings. *)
Definition includes (xs : list string) (x : string) : bool :=
  existsb (String.eqb x) xs.

(** Truthiness of a string: only the empty string is falsy. *)
Definition truthy (s : string) : bool := negb (s =? "").

(** Truthiness of a possibly [undefined] string. *)
Definition truthyOpt (o : option string) : bool :=
  match o with
  | Some s => truthy s
  | None => false
  end.

(** [a || b] where [a] is a string or [undefined] and [b] a string. *)
Definition orElse (a : option string) (b : string) : string :=
  match a with
  | Some s => if truthy s then s else b
  | None => b
  end.

(** White space stripped by [String.prototype.trim], among code points
    0..255: TAB, LF, VT, FF, CR, SP and NBSP. *)
Definition isWhiteSpace (c : ascii) : bool :=
  let n := nat_of_ascii c in
  (((9 <=? n) && (n <=? 13)) || (n =? 32) || (n =? 160))%nat.

Fixpoint trimStart (s : string) : string :=
  match s with
  | String c rest => if isWhiteSpace c then trimStart rest else s
  | EmptyString => EmptyString
  end.

Fixpoint trimEnd (s : string) : string :=
  match s with
  | String c rest =>
      match trimEnd rest with
      | EmptyString => if isWhiteSpace c then EmptyString else String c EmptyString
      | r => String c r
      end
  | EmptyString => EmptyString
  end.

Definition trim (s : string) : string := trimEnd (trimStart s).

Definition lowerChar (c : ascii) : ascii :=
  let n := nat_of_ascii c in
  if (((65 <=? n) && (n <=? 90))
      || ((192 <=? n) && (n <=? 222) && negb (n =? 215)))%nat
  then ascii_of_nat (n + 32) else c.

(** [String.prototype.toLowerCase] on code points 0..255. *)
Fixpoint toLowerCase (s : string) : string :=
  match s with
  | String c rest => String (lowerChar c) (toLowerCase rest)
  | EmptyString => EmptyString
  end.

End Js.

(* ================================================================== *)
(** ** validator.js checks reached through express-validator *)

Module Validator.

Definition isHexDigit (c : ascii) : bool :=
  let n := nat_of_ascii c in
  (((48 <=? n) && (n <=? 57)) || ((65 <=? n) && (n <=? 70))
   || ((97 <=? n) && (n <=? 102)))%nat.

Fixpoint allHex (s : string) : bool :=
  match s with
  | String c rest => isHexDigit c && allHex rest
  | EmptyString => true
  end.

Definition hexDigits (s : string) : bool :=
  negb (s =? "") && allHex s.

(** [/^(0x|0h)?[0-9A-F]+$/i] *)
Definition isHexadecimal (s : string) : bool :=
  hexDigits s
  || match s with
     | String "0" (String p rest) =>
         (Ascii.eqb p "x" || Ascii.eqb p "X" || Ascii.eqb p "h" || Ascii.eqb p "H")
         && hexDigits rest
     | _ => false
     end.

(** [isMongoId(str) = isHexadecimal(str) && str.length === 24] *)
Definition isMongoId (s : string) : bool :=
  isHexadecimal s && (String.length s =? 24)%nat.

(** [isEmpty(str)] with the default [ignore_whitespace: false]. *)
Definition isEmpty (s : string) : bool := (String.length s =? 0)%nat.

(** [isLength(str, {min, max})] *)
Definition isLength (lo : nat) (hi : option nat) (s : string) : bool :=
  (lo <=? String.length s)%nat
  && match hi with
     | Some m => (String.length s <=? m)%nat
     | None => true
     end.

End Validator.

(* ================================================================== *)
(** ** Data model: models/Form.js and models/Response.js *)

(** [enum: ["text", "multiple-choice"]] *)
Inductive QuestionType := TextQuestion | MultipleChoice.

Definition QuestionType_eqb (a b : QuestionType) : bool :=
  match a, b with
  | TextQuestion, TextQuestion => true
  | MultipleChoice, MultipleChoice => true
  | _, _ => false
  end.

(** [questionSchema]; the field after [q_] is the source's name. *)
Record Question := mkQuestion {
  q_id : string;
  q_text : string;
  q_type : QuestionType;
  q_options : list string;
  q_required : bool;
  q_order : nat
}.

(** [enum: ["light", "dark", "blue", "green"]] *)
Inductive Theme := Light | Dark | Blue | Green.

Record Settings := mkSettings {
  allowMultipleResponses : bool;
  requireEmail : bool;
  theme : Theme
}.

(** [formSchema].  [f_publicUrl = None] is a document whose [publicUrl] is
    still [undefined]. *)
Record Form := mkForm {
  f_id : string;
  f_title : string;
  f_description : option string;
  f_creator : string;
  f_questions : list Question;
  f_isActive : bool;
  f_publicUrl : option string;
  f_settings : Settings
}.

(** [answerSchema] *)
Record Answer := mkAnswer {
  questionId : string;
  questionText : string;
  questionType : QuestionType;
  answer : string
}.

(** [responseSchema] *)
Record Response := mkResponse {
  r_id : string;
  r_form : string;
  r_answers : list Answer;
  r_submitterEmail : option string;
  r_submitterName : option string;
  r_ipAddress : string;
  r_userAgent : option string;
  r_submittedAt : nat
}.

(** The two collections, in insertion order. *)
Record Db := mkDb {
  forms : list Form;
  responses : list Response
}.

(** [Form.findById(id)] *)
Definition Form_findById (db : Db) (id : string) : option Form :=
  find (fun f => f_id f =? id) (forms db).

(** [Form.findOne({ _id: id, creator: user })] *)
Definition Form_findOne (db : Db) (id user : string) : option Form :=
  find (fun f => (f_id f =? id) && (f_creator f =? user)) (forms db).

(** The [lowercase: true, trim: true] setters of [submitterEmail]; Mongoose
    runs them on assignment and on query filters. *)
Definition submitterEmail_set (s : string) : string :=
  Js.toLowerCase (Js.trim s).

(** [Response.findOne({ form: formId, submitterEmail: key })]: the first
    record of the form whose [submitterEmail] field holds the key.  A record
    without the field does not match a string. *)
Definition Response_findOne (db : Db) (formId key : string) : option Response :=
  find (fun r =>
          (r_form r =? formId)
          && match r_submitterEmail r with
             | Some e => e =? submitterEmail_set key
             | None => false
             end)
       (responses db).

(** [Response.find({ form: formId })] *)
Definition Response_find (db : Db) (formId : string) : list Response :=
  filter (fun r => r_form r =? formId) (responses db).

(** [Response.countDocuments({ form: formId })] *)
Definition Response_countDocuments (db : Db) (formId : string) : nat :=
  length (Response_find db formId).

(* ================================================================== *)
(** ** Exceptions

    The handlers run inside [try { ... } catch (error) { 500 }].  A
    computation either returns or throws. *)

Inductive Attempt (A : Type) : Type :=
| Returned (a : A)
| Threw.

Arguments Returned {A} a.
Arguments Threw {A}.

Definition bind {A B : Type} (m : Attempt A) (k : A -> Attempt B) : Attempt B :=
  match m with
  | Returned a => k a
  | Threw => Threw
  end.

Notation "'let*' x ':=' m 'in' k" := (bind m (fun x => k))
  (at level 10, x name, m at level 100, k at level 200).

(** [try { body } catch { handler }] *)
Definition tryCatch {A : Type} (body : Attempt A) (handler : A) : A :=
  match body with
  | Returned a => a
  | Threw => handler
  end.

(** Mongoose's cast of a string to an [ObjectId]: 24 hexadecimal digits, kept
    in lower case.  Any other string that [isMongoId] lets through (24
    characters with the [0x] or [0h] prefix) is a [CastError]. *)
Definition castObjectId (s : string) : Attempt string :=
  if Validator.allHex s && (String.length s =? 24)%nat
  then Returned (Js.toLowerCase s)
  else Threw.

(* ================================================================== *)
(** ** POST /api/responses *)

(** One element of [req.body.answers]. *)
Record RawAnswer := mkRawAnswer {
  a_questionId : string;
  a_answer : string
}.

(** [req.body] with [req.ip] and [req.get('User-Agent')]. *)
Record SubmitRequest := mkSubmitRequest {
  formId : string;
  answers : list RawAnswer;
  submitterEmail : option string;
  submitterName : option string;
  ip : string;
  userAgent : option string
}.

(** What the server draws for a new document: its [_id] and [Date.now()]. *)
Record Env := mkEnv {
  newObjectId : string;
  now : nat
}.

(** The fields an express-validator chain can complain about. *)
Inductive FieldError :=
| ErrFormId
| ErrAnswers
| ErrQuestionId (index : nat)
| ErrAnswer (index : nat)
| ErrSubmitterEmail
| ErrSubmitterName.

(** The responses of the route. *)
Inductive Reply :=
| ValidationFailed (errors : list FieldError)
| FormUnavailable
| AnswerCountMismatch
| RequiredQuestionUnanswered (question : Question)
| InvalidOption (question : Question)
| DuplicateSubmission
| Created (responseId : string)
| ServerError.

Definition status (r : Reply) : nat :=
  match r with
  | ValidationFailed _ => 400
  | FormUnavailable => 404
  | AnswerCountMismatch => 400
  | RequiredQuestionUnanswered _ => 400
  | InvalidOption _ => 400
  | DuplicateSubmission => 400
  | Created _ => 201
  | ServerError => 500
  end.

Definition dquote : string := String (ascii_of_nat 34) EmptyString.

(** The [message] of the JSON body; [ValidationFailed] carries [errors]
    instead. *)
Definition message (r : Reply) : option string :=
  match r with
  | ValidationFailed _ => None
  | FormUnavailable => Some "Form not found or inactive"
  | AnswerCountMismatch =>
      Some "Number of answers does not match number of questions"
  | RequiredQuestionUnanswered q =>
      Some ("Required question " ++ dquote ++ q_text q ++ dquote
              ++ " is not answered")%string
  | InvalidOption q =>
      Some ("Invalid option for question " ++ dquote ++ q_text q ++ dquote)%string
  | DuplicateSubmission =>
      Some "You have already submitted a response to this form"
  | Created _ => Some "Response submitted successfully"
  | ServerError => Some "Server error"
  end.

(** The five rejections of the specification's taxonomy. *)
Definition isTaxonomyRejection (r : Reply) : bool :=
  match r with
  | FormUnavailable | AnswerCountMismatch | RequiredQuestionUnanswered _
  | InvalidOption _ | DuplicateSubmission => true
  | _ => false
  end.

(** Errors of a wildcard chain [body('answers.*.field')], one per failing
    element. *)
Fixpoint wildcardErrors (ok : RawAnswer -> bool) (err : nat -> FieldError)
    (index : nat) (l : list RawAnswer) : list FieldError :=
  match l with
  | [] => []
  | a :: rest =>
      (if ok a then [] else [err index])
      ++ wildcardErrors ok err (S index) rest
  end.

(** [answers.find(a => a.questionId.toString() === question._id.toString())] *)
Definition findAnswer (answers : list RawAnswer) (question : Question)
    : option RawAnswer :=
  find (fun a => a_questionId a =? q_id question) answers.

(** [form.questions.find(q => q._id.toString() === answer.questionId.toString())] *)
Definition findQuestion (form : Form) (id : string) : option Question :=
  find (fun q => q_id q =? id) (f_questions form).

(** The loop "Validate required questions are answered": the question it
    returns on, if any. *)
Fixpoint requiredCheck (questions : list Question) (answers : list RawAnswer)
    : option Question :=
  match questions with
  | [] => None
  | question :: rest =>
      match findAnswer answers question with
      | None =>
          if q_required question then Some question
          else requiredCheck rest answers
      | Some _ => requiredCheck rest answers
      end
  end.

(** The loop "Validate multiple-choice answers": the question it returns
    on, if any. *)
Fixpoint optionCheck (form : Form) (answers : list RawAnswer) : option Question :=
  match answers with
  | [] => None
  | a :: rest =>
      match findQuestion form (a_questionId a) with
      | Some question =>
          if QuestionType_eqb (q_type question) MultipleChoice
             && negb (Js.includes (q_options question) (a_answer a))
          then Some question
          else optionCheck form rest
      | None => optionCheck form rest
      end
  end.

(** [answers.map(answer => { const question = ...find(...); return {...
    question.text ...} })]: reading [question.text] of [undefined] throws. *)
Fixpoint normalize (form : Form) (answers : list RawAnswer)
    : Attempt (list (string * string * QuestionType * string)) :=
  match answers with
  | [] => Returned []
  | a :: rest =>
      match findQuestion form (a_questionId a) with
      | None => Threw
      | Some question =>
          let* tail := normalize form rest in
          Returned ((a_questionId a, q_text question, q_type question, a_answer a)
                      :: tail)
      end
  end.

(** Casting and validating one element of [answers] under [answerSchema]:
    [questionId] must cast to an [ObjectId] and the required string
    [questionText] must not be empty. *)
Definition castAnswer (raw : string * string * QuestionType * string)
    : Attempt Answer :=
  let '(qid, qtext, qtype, value) := raw in
  let* oid := castObjectId qid in
  if qtext =? "" then Threw
  else Returned (mkAnswer oid qtext qtype value).

Fixpoint castAnswers (raws : list (string * string * QuestionType * string))
    : Attempt (list Answer) :=
  match raws with
  | [] => Returned []
  | raw :: rest =>
      let* a := castAnswer raw in
      let* tail := castAnswers rest in
      Returned (a :: tail)
  end.

Definition isSome {A : Type} (o : option A) : bool :=
  match o with
  | Some _ => true
  | None => false
  end.

Section SubmitRoute.

(** validator.js's [isEmail] and [normalizeEmail], which this repository
    only calls. *)
Variable isEmail : string -> bool.
Variable normalizeEmail : string -> string.

(** [validationResult(req).array()] for the six chains of the route, in
    the order they run. *)
Definition validationResult (req : SubmitRequest) : list FieldError :=
  (if Validator.isMongoId (formId req) then [] else [ErrFormId])
  ++ (if (1 <=? List.length (answers req))%nat then [] else [ErrAnswers])
  ++ wildcardErrors (fun a => Validator.isMongoId (a_questionId a))
       ErrQuestionId 0 (answers req)
  ++ wildcardErrors (fun a => negb (Validator.isEmpty (a_answer a)))
       ErrAnswer 0 (answers req)
  ++ match submitterEmail req with
     | Some e => if isEmail e then [] else [ErrSubmitterEmail]
     | None => []
     end
  ++ match submitterName req with
     | Some n =>
         if Validator.isLength 0 (Some 100) (Js.trim n) then []
         else [ErrSubmitterName]
     | None => []
     end.

(** The body of the [try] block once the request validated: the reply and
    the collection afterwards. *)
Definition submitBody (db : Db) (req : SubmitRequest) (env : Env)
    : Attempt (Reply * Db) :=
  let email := option_map normalizeEmail (submitterEmail req) in
  let name := option_map Js.trim (submitterName req) in
  let* formOid := castObjectId (formId req) in
  match Form_findById db formOid with
  | None => Returned (FormUnavailable, db)
  | Some form =>
      if negb (f_isActive form) then Returned (FormUnavailable, db)
      else if negb (List.length (answers req) =? List.length (f_questions form))%nat
      then Returned (AnswerCountMismatch, db)
      else
        match requiredCheck (f_questions form) (answers req) with
        | Some question => Returned (RequiredQuestionUnanswered question, db)
        | None =>
            match optionCheck form (answers req) with
            | Some question => Returned (InvalidOption question, db)
            | None =>
                if negb (allowMultipleResponses (f_settings form))
                   && isSome (Response_findOne db formOid
                                (Js.orElse email (ip req)))
                then Returned (DuplicateSubmission, db)
                else
                  let* raws := normalize form (answers req) in
                  let* stored := castAnswers raws in
                  let response :=
                    mkResponse (newObjectId env) formOid stored
                      (option_map submitterEmail_set email)
                      (option_map Js.trim name)
                      (ip req) (userAgent req) (now env) in
                  Returned (Created (newObjectId env),
                            mkDb (forms db) (responses db ++ [response]))
            end
        end
  end.

(** The route handler. *)
Definition submit (db : Db) (req : SubmitRequest) (env : Env) : Reply * Db :=
  match validationResult req with
  | [] => tryCatch (submitBody db req env) (ServerError, db)
  | errors => (ValidationFailed errors, db)
  end.

(** The request passed express-validator and names a stored form. *)
Definition reaches (db : Db) (req : SubmitRequest) (form : Form) : Prop :=
  validationResult req = []
  /\ exists oid,
       castObjectId (formId req) = Returned oid
       /\ Form_findById db oid = Some form.

(** The lookup key of the duplicate check. *)
Definition duplicateKey (req : SubmitRequest) : string :=
  Js.orElse (option_map normalizeEmail (submitterEmail req)) (ip req).

(** The duplicate check lets the request through. *)
Definition notDuplicate (db : Db) (req : SubmitRequest) (form : Form) : Prop :=
  allowMultipleResponses (f_settings form) = true
  \/ forall oid, castObjectId (formId req) = Returned oid ->
                 Response_findOne db oid (duplicateKey req) = None.

End SubmitRoute.


(* ================================================================== *)
(** ** The object literal [{}] used as a tally *)

Module JsObject.

(** The values the tally loop can store in a property. *)
Inductive Value :=
| Num (n : nat)
| Str (s : string).

(** Own properties, in creation order. *)
Definition t := list (string * Value).

Definition empty : t := [].

Fixpoint getOwn (o : t) (k : string) : option Value :=
  match o with
  | [] => None
  | (k', v) :: rest => if k' =? k then Some v else getOwn rest k
  end.

(** Assignment to a data property: an existing property keeps its place,
    a new one is created last. *)
Fixpoint setOwn (o : t) (k : string) (v : Value) : t :=
  match o with
  | [] => [(k, v)]
  | (k', v') :: rest =>
      if k' =? k then (k', v) :: rest else (k', v') :: setOwn rest k v
  end.

(** What a property of [Object.prototype] is, seen from [{}]: the
    [__proto__] accessor or a built-in function. *)
Inductive Inherited :=
| ProtoAccessor
| BuiltinFunction (name : string).

(** The property names of [Object.prototype]. *)
Definition inherited (k : string) : option Inherited :=
  if k =? "__proto__" then Some ProtoAccessor
  else if k =? "constructor" then Some (BuiltinFunction "Object")
  else if Js.includes
            ["__defineGetter__"; "__defineSetter__"; "hasOwnProperty";
             "__lookupGetter__"; "__lookupSetter__"; "isPrototypeOf";
             "propertyIsEnumerable"; "toString"; "valueOf"; "toLocaleString"]
            k
  then Some (BuiltinFunction k)
  else None.

(** [String(f)] of a built-in function. *)
Definition functionSource (name : string) : string :=
  ("function " ++ name ++ "() { [native code] }")%string.

(** [o[k] = (o[k] || 0) + 1] *)
Definition increment (o : t) (k : string) : t :=
  match getOwn o k with
  | Some (Num n) => setOwn o k (Num (n + 1))
  | Some (Str s) =>
      if Js.truthy s then setOwn o k (Str (s ++ "1")%string)
      else setOwn o k (Num 1)
  | None =>
      match inherited k with
      | None => setOwn o k (Num 1)
      | Some (BuiltinFunction name) =>
          setOwn o k (Str (functionSource name ++ "1")%string)
      | Some ProtoAccessor => o
      end
  end.

(** The numeric properties added up. *)
Fixpoint sumCounts (o : t) : nat :=
  match o with
  | [] => 0
  | (_, Num n) :: rest => n + sumCounts rest
  | (_, Str _) :: rest => sumCounts rest
  end.

Definition keys (o : t) : list string := map fst o.

(** Property enumeration, which [JSON.stringify] and [Object.entries]
    follow: array indices in ascending order first, then the other names
    in creation order. *)

Definition digit (c : ascii) : option N :=
  let n := N_of_ascii c in
  if ((48 <=? n) && (n <=? 57))%N then Some (n - 48)%N else None.

Fixpoint parseDigits (acc : N) (s : string) : option N :=
  match s with
  | EmptyString => Some acc
  | String c rest =>
      match digit c with
      | Some d => parseDigits (10 * acc + d)%N rest
      | None => None
      end
  end.

(** A canonical numeric string below [2^32 - 1]. *)
Definition arrayIndex (k : string) : option N :=
  match k with
  | EmptyString => None
  | String c rest =>
      if Ascii.eqb c "0" && negb (rest =? "") then None
      else
        match parseDigits 0%N k with
        | Some n => if (n <? 4294967295)%N then Some n else None
        | None => None
        end
  end.

Fixpoint insertIndexed (e : N * (string * Value)) (l : list (N * (string * Value)))
    : list (N * (string * Value)) :=
  match l with
  | [] => [e]
  | e' :: rest =>
      if (fst e <? fst e')%N then e :: l else e' :: insertIndexed e rest
  end.

Fixpoint indexed (o : t) : list (N * (string * Value)) :=
  match o with
  | [] => []
  | (k, v) :: rest =>
      match arrayIndex k with
      | Some n => insertIndexed (n, (k, v)) (indexed rest)
      | None => indexed rest
      end
  end.

Definition named (o : t) : t :=
  filter (fun e => negb (isSome (arrayIndex (fst e)))) o.

Definition entries (o : t) : list (string * Value) :=
  map snd (indexed o) ++ named o.

End JsObject.

(* ================================================================== *)
(** ** GET /api/responses/form/:formId/summary *)

Record QuestionSummary := mkQuestionSummary {
  s_questionId : string;
  s_questionText : string;
  s_questionType : QuestionType;
  totalAnswers : nat;
  s_answers : JsObject.t
}.

Record Summary := mkSummary {
  totalResponses : nat;
  questions : list QuestionSummary
}.

(** [response.answers.find(a => a.questionId.toString() === question._id.toString())] *)
Definition findStoredAnswer (response : Response) (question : Question)
    : option Answer :=
  find (fun a => questionId a =? q_id question) (r_answers response).

(** One iteration of "Count answers for this question". *)
Definition countResponse (question : Question) (acc : QuestionSummary)
    (response : Response) : QuestionSummary :=
  match findStoredAnswer response question with
  | Some a =>
      mkQuestionSummary (s_questionId acc) (s_questionText acc)
        (s_questionType acc) (totalAnswers acc + 1)
        (if QuestionType_eqb (q_type question) MultipleChoice
         then JsObject.increment (s_answers acc) (answer a)
         else s_answers acc)
  | None => acc
  end.

(** The [questionSummary] pushed for one question. *)
Definition summarizeQuestion (responses : list Response) (question : Question)
    : QuestionSummary :=
  fold_left (countResponse question) responses
    (mkQuestionSummary (q_id question) (q_text question) (q_type question)
       0 JsObject.empty).

(** The [summary] object the route builds from [totalResponses], the form
    and the responses found. *)
Definition buildSummary (total : nat) (form : Form) (responses : list Response)
    : Summary :=
  mkSummary total (map (summarizeQuestion responses) (f_questions form)).

Inductive SummaryReply :=
| SummaryFormNotFound
| SummaryOk (summary : Summary)
| SummaryServerError.

(** The route handler, for the authenticated [user]. *)
Definition getSummary (db : Db) (formId user : string) : SummaryReply :=
  tryCatch
    (let* oid := castObjectId formId in
     match Form_findOne db oid user with
     | None => Returned SummaryFormNotFound
     | Some form =>
         Returned (SummaryOk (buildSummary (Response_countDocuments db oid)
                                form (Response_find db oid)))
     end)
    SummaryServerError.

(** The aggregation as a function of the form and its responses: what
    [getSummary] computes once both are loaded. *)
Definition summarize (form : Form) (responses : list Response) : Summary :=
  buildSummary (List.length responses) form responses.

(** The summary as [res.json] writes it: every tally in enumeration order. *)
Definition jsonView (s : Summary)
    : nat * list (string * string * QuestionType * nat * list (string * JsObject.Value)) :=
  (totalResponses s,
   map (fun q => (s_questionId q, s_questionText q, s_questionType q,
                  totalAnswers q, JsObject.entries (s_answers q)))
       (questions s)).

(* ================================================================== *)
(** ** models/Form.js: saving a form *)

(** What the server draws while saving a form: [Date.now()],
    [Math.random().toString(36)], the [_id] of a new document and the
    [_id] of a new question at a given index. *)
Record FormEnv := mkFormEnv {
  dateNow : N;
  randomBase36 : string;
  newFormId : string;
  newQuestionId : nat -> string
}.

(** [`form-${Date.now()}-${Math.random().toString(36).substr(2, 9)}`] *)
Definition generatePublicUrl (env : FormEnv) : string :=
  ("form-" ++ NilZero.string_of_uint (N.to_uint (dateNow env)) ++ "-"
   ++ String.substring 2 9 (randomBase36 env))%string.

(** [formSchema.pre("save", ...)] *)
Definition preSave (env : FormEnv) (form : Form) : Form :=
  if negb (Js.truthyOpt (f_publicUrl form))
  then mkForm (f_id form) (f_title form) (f_description form) (f_creator form)
         (f_questions form) (f_isActive form) (Some (generatePublicUrl env))
         (f_settings form)
  else form.

(** Schema validation of a form document: the required strings [title] and
    [questions.*.text] must not be empty. *)
Definition validForm (form : Form) : bool :=
  negb (f_title form =? "")
  && forallb (fun q => negb (q_text q =? "")) (f_questions form).

(** Writing back a document that was loaded from the collection. *)
Fixpoint replaceForm (l : list Form) (form : Form) : list Form :=
  match l with
  | [] => []
  | g :: rest =>
      if f_id g =? f_id form then form :: rest
      else g :: replaceForm rest form
  end.

(** [form.save()]: validation, then the [pre("save")] hook, then the write.
    Inserting under an [_id] or a [publicUrl] that is already taken breaks a
    unique index. *)
Definition Form_save (db : Db) (env : FormEnv) (isNew : bool) (form : Form)
    : Attempt (Form * Db) :=
  if negb (validForm form) then Threw
  else
    let saved := preSave env form in
    if isNew then
      if existsb (fun g => (f_id g =? f_id saved)
                           || match f_publicUrl g, f_publicUrl saved with
                              | Some u, Some v => u =? v
                              | _, _ => false
                              end)
                 (forms db)
      then Threw
      else Returned (saved, mkDb (forms db ++ [saved]) (responses db))
    else Returned (saved, mkDb (replaceForm (forms db) saved) (responses db)).

(* ================================================================== *)
(** ** routes/forms.js: POST /api/forms and PUT /api/forms/:id *)

(** One element of [req.body.questions]. *)
Record QuestionInput := mkQuestionInput {
  qi_id : option string;
  qi_text : string;
  qi_type : QuestionType;
  qi_options : option (list string);
  qi_required : option bool
}.

(** [req.body.settings]: the fields it carries. *)
Record SettingsInput := mkSettingsInput {
  si_allowMultipleResponses : option bool;
  si_requireEmail : option bool;
  si_theme : option Theme
}.

(** [req.body] of [POST /api/forms]. *)
Record CreateBody := mkCreateBody {
  c_title : string;
  c_description : option string;
  c_questions : list QuestionInput;
  c_settings : option SettingsInput
}.

(** [req.body] of [PUT /api/forms/:id]. *)
Record UpdateBody := mkUpdateBody {
  u_title : option string;
  u_description : option string;
  u_questions : option (list QuestionInput);
  u_isActive : option bool;
  u_settings : option SettingsInput
}.

Inductive FormReply :=
| FormValidationFailed
| FormNotFound
| TooFewOptions (questionText : string)
| FormCreated (form : Form)
| FormUpdated (form : Form)
| FormServerError.

Definition orDefault {A : Type} (o : option A) (d : A) : A :=
  match o with
  | Some a => a
  | None => d
  end.

(** [{ ...current, ...input }] *)
Definition mergeSettings (current : Settings) (input : SettingsInput) : Settings :=
  mkSettings
    (orDefault (si_allowMultipleResponses input) (allowMultipleResponses current))
    (orDefault (si_requireEmail input) (requireEmail current))
    (orDefault (si_theme input) (theme current)).

(** The schema defaults of [settings]. *)
Definition defaultSettings : Settings := mkSettings false false Light.

(** The loop "Validate multiple-choice questions have options": the text of
    the question it returns on, if any. *)
Fixpoint optionsCheck (questions : list QuestionInput) : option string :=
  match questions with
  | [] => None
  | question :: rest =>
      if QuestionType_eqb (qi_type question) MultipleChoice
         && match qi_options question with
            | None => true
            | Some options => (List.length options <? 2)%nat
            end
      then Some (qi_text question)
      else optionsCheck rest
  end.

(** Casting [questions] to sub-documents: [question.order = i + 1], the
    [trim] setters, the defaults and an [_id] of its own where none was sent. *)
Fixpoint castQuestions (env : FormEnv) (index : nat) (questions : list QuestionInput)
    : Attempt (list Question) :=
  match questions with
  | [] => Returned []
  | question :: rest =>
      let* id := match qi_id question with
                 | Some s => castObjectId s
                 | None => Returned (newQuestionId env index)
                 end in
      let* tail := castQuestions env (S index) rest in
      Returned (mkQuestion id (Js.trim (qi_text question)) (qi_type question)
                  (map Js.trim (orDefault (qi_options question) []))
                  (orDefault (qi_required question) false)
                  (index + 1)
                  :: tail)
  end.

(** [body('questions').isArray({ min: 1, max: 10 })] *)
Definition questionCountOk (questions : list QuestionInput) : bool :=
  ((1 <=? List.length questions) && (List.length questions <=? 10))%nat.

(** The chains of [POST /api/forms]. *)
Definition createValid (body : CreateBody) : bool :=
  Validator.isLength 1 (Some 200) (Js.trim (c_title body))
  && match c_description body with
     | Some d => Validator.isLength 0 (Some 500) (Js.trim d)
     | None => true
     end
  && questionCountOk (c_questions body)
  && forallb (fun q => Validator.isLength 1 (Some 500) (Js.trim (qi_text q)))
       (c_questions body).

(** The sanitizer of [body('questions.*.text').trim()]. *)
Definition trimText (question : QuestionInput) : QuestionInput :=
  mkQuestionInput (qi_id question) (Js.trim (qi_text question))
    (qi_type question) (qi_options question) (qi_required question).

(** [POST /api/forms] for the authenticated [user]. *)
Definition createForm (db : Db) (user : string) (body : CreateBody) (env : FormEnv)
    : FormReply * Db :=
  if negb (createValid body) then (FormValidationFailed, db)
  else
    let questions := map trimText (c_questions body) in
    match optionsCheck questions with
    | Some text => (TooFewOptions text, db)
    | None =>
        tryCatch
          (let* questions := castQuestions env 0 questions in
           let form :=
             mkForm (newFormId env) (Js.trim (c_title body))
               (option_map Js.trim (c_description body)) user questions true None
               (mergeSettings defaultSettings
                  (orDefault (c_settings body) (mkSettingsInput None None None))) in
           let* saved := Form_save db env true form in
           Returned (FormCreated (fst saved), snd saved))
          (FormServerError, db)
    end.

(** The chains of [PUT /api/forms/:id]. *)
Definition updateValid (body : UpdateBody) : bool :=
  match u_title body with
  | Some t => Validator.isLength 1 (Some 200) (Js.trim t)
  | None => true
  end
  && match u_description body with
     | Some d => Validator.isLength 0 (Some 500) (Js.trim d)
     | None => true
     end
  && match u_questions body with
     | Some questions => questionCountOk questions
     | None => true
     end.

(** [PUT /api/forms/:id] for the authenticated [user]. *)
Definition updateForm (db : Db) (id user : string) (body : UpdateBody) (env : FormEnv)
    : FormReply * Db :=
  if negb (updateValid body) then (FormValidationFailed, db)
  else
    tryCatch
      (let* oid := castObjectId id in
       match Form_findOne db oid user with
       | None => Returned (FormNotFound, db)
       | Some form =>
           let title := orDefault (option_map Js.trim (u_title body)) (f_title form) in
           let description :=
             match u_description body with
             | Some d => Some (Js.trim d)
             | None => f_description form
             end in
           let isActive := orDefault (u_isActive body) (f_isActive form) in
           let settings :=
             match u_settings body with
             | Some input => mergeSettings (f_settings form) input
             | None => f_settings form
             end in
           match u_questions body with
           | Some inputs =>
               match optionsCheck inputs with
               | Some text => Returned (TooFewOptions text, db)
               | None =>
                   let* questions := castQuestions env 0 inputs in
                   let* saved :=
                     Form_save db env false
                       (mkForm (f_id form) title description (f_creator form)
                          questions isActive (f_publicUrl form) settings) in
                   Returned (FormUpdated (fst saved), snd saved)
               end
           | None =>
               let* saved :=
                 Form_save db env false
                   (mkForm (f_id form) title description (f_creator form)
                      (f_questions form) isActive (f_publicUrl form) settings) in
               Returned (FormUpdated (fst saved), snd saved)
           end
       end)
      (FormServerError, db).

(** The two routes that save a form. *)
Inductive FormRequest :=
| PostForm (user : string) (body : CreateBody) (env : FormEnv)
| PutForm (id user : string) (body : UpdateBody) (env : FormEnv).

Definition serve (db : Db) (request : FormRequest) : FormReply * Db :=
  match request with
  | PostForm user body env => createForm db user body env
  | PutForm id user body env => updateForm db id user body env
  end.

(** The collection after a sequence of requests. *)
Definition serveAll (db : Db) (requests : list FormRequest) : Db :=
  fold_left (fun d request => snd (serve d request)) requests db.

(* ================================================================== *)
(** ** Reading a summary *)

(** The stored answers the tally loop counts for a question: of each
    response, the first answer that names it. *)
Definition counted (question : Question) (responses : list Response)
    : list Answer :=
  flat_map (fun r => match findStoredAnswer r question with
                     | Some a => [a]
                     | None => []
                     end)
           responses.

(** The response holds an answer that names the question. *)
Definition answersQuestion (question : Question) (response : Response) : bool :=
  existsb (fun a => questionId a =? q_id question) (r_answers response).

(** What [o[k] = (o[k] || 0) + 1] makes of the own property [k]. *)
Definition incremented (k : string) (v : option JsObject.Value)
    : option JsObject.Value :=
  match v with
  | Some (JsObject.Num n) => Some (JsObject.Num (n + 1))
  | Some (JsObject.Str s) =>
      if Js.truthy s then Some (JsObject.Str (s ++ "1")%string)
      else Some (JsObject.Num 1)
  | None =>
      match JsObject.inherited k with
      | None => Some (JsObject.Num 1)
      | Some (JsObject.BuiltinFunction name) =>
          Some (JsObject.Str (JsObject.functionSource name ++ "1")%string)
      | Some JsObject.ProtoAccessor => None
      end
  end.

(** Two tallies hold the same properties with the same values. *)
Definition sameTally (o o' : JsObject.t) : Prop :=
  forall k, JsObject.getOwn o k = JsObject.getOwn o' k.

(** Two entries of a summary agree up to the order of the tally's keys, as
    the object holds them and as [res.json] writes them. *)
Definition sameEntry (s s' : QuestionSummary) : Prop :=
  s_questionId s = s_questionId s'
  /\ s_questionText s = s_questionText s'
  /\ s_questionType s = s_questionType s'
  /\ totalAnswers s = totalAnswers s'
  /\ sameTally (s_answers s) (s_answers s')
  /\ Permutation (s_answers s) (s_answers s')
  /\ Permutation (JsObject.entries (s_answers s))
       (JsObject.entries (s_answers s')).

(* ================================================================== *)
(** ** routes/forms.js: DELETE /api/forms/:id and GET /api/forms/public/:publicUrl *)

Inductive DeleteReply :=
| DeleteNotFound
| FormDeleted
| DeleteServerError.

(** [Form.findByIdAndDelete(id)] *)
Fixpoint removeForm (l : list Form) (oid : string) : list Form :=
  match l with
  | [] => []
  | g :: rest => if f_id g =? oid then rest else g :: removeForm rest oid
  end.

(** [DELETE /api/forms/:id] for the authenticated [user]. *)
Definition deleteForm (db : Db) (id user : string) : DeleteReply * Db :=
  tryCatch
    (let* oid := castObjectId id in
     match Form_findOne db oid user with
     | None => Returned (DeleteNotFound, db)
     | Some _ =>
         Returned (FormDeleted, mkDb (removeForm (forms db) oid) (responses db))
     end)
    (DeleteServerError, db).

(** [GET /api/forms/public/:publicUrl]: the form of
    [Form.findOne({ publicUrl, isActive: true })], or the 404. *)
Definition getPublicForm (db : Db) (publicUrl : string) : option Form :=
  find (fun f => match f_publicUrl f with
                 | Some u => u =? publicUrl
                 | None => false
                 end
                 && f_isActive f)
       (forms db).

(* ================================================================== *)
(** ** routes/responses.js: GET /api/responses/:id *)

Inductive ResponseReply :=
| ResponseNotFound
| AccessDenied
| ResponseOk (response : Response) (formTitle formCreator : string)
| ResponseServerError.

(** [Response.findById(id)] *)
Definition Response_findById (db : Db) (oid : string) : option Response :=
  find (fun r => r_id r =? oid) (responses db).

(** The route handler, for the authenticated [user].  [populate('form',
    'title creator')] leaves [response.form] null when the form is gone, and
    reading [response.form.creator] then throws. *)
Definition getResponse (db : Db) (id user : string) : ResponseReply :=
  tryCatch
    (let* oid := castObjectId id in
     match Response_findById db oid with
     | None => Returned ResponseNotFound
     | Some response =>
         match Form_findById db (r_form response) with
         | None => Threw
         | Some form =>
             if negb (f_creator form =? user) then Returned AccessDenied
             else Returned (ResponseOk response (f_title form) (f_creator form))
         end
     end)
    ResponseServerError.

(* ================================================================== *)
(** ** routes/responses.js: GET /api/responses/form/:formId/export

    The rows and the header the route hands to the CSV writer, from the
    responses the query returned. *)

Section ExportRoute.

(** [Date.prototype.toISOString] of a time stamp. *)
Variable toISOString : nat -> string.

(** The [row] of one response. *)
Definition csvRow (response : Response) : JsObject.t :=
  fold_left
    (fun row a =>
       JsObject.setOwn row ("Q" ++ questionText a)%string (JsObject.Str (answer a)))
    (r_answers response)
    [("Response ID", JsObject.Str (r_id response));
     ("Submitted At", JsObject.Str (toISOString (r_submittedAt response)));
     ("Submitter Email", JsObject.Str (Js.orElse (r_submitterEmail response) ""));
     ("Submitter Name", JsObject.Str (Js.orElse (r_submitterName response) ""));
     ("IP Address", JsObject.Str (Js.orElse (Some (r_ipAddress response)) ""))].

(** [csvData] and the [header] ids, [Object.keys(csvData[0])]; [None] is the
    404 "No responses to export". *)
Definition exportData (found : list Response)
    : option (list string * list JsObject.t) :=
  match map csvRow found with
  | [] => None
  | first :: rest =>
      Some (map fst (JsObject.entries first), first :: rest)
  end.

End ExportRoute.

(** The five columns every exported row starts with. *)
Definition fixedColumns : list string :=
  ["Response ID"; "Submitted At"; "Submitter Email"; "Submitter Name";
   "IP Address"].

(* ================================================================== *)
(** ** frontend/src/pages/PublicForm.tsx: onSubmit *)

(** The values react-hook-form hands over, by field name. *)
Definition FormValues := string -> option string.

(** [`question_${question._id}`] *)
Definition fieldName (question : Question) : string :=
  ("question_" ++ q_id question)%string.

(** "Prepare answers": one answer per question, [answer || ''] . *)
Definition prepareAnswers (form : Form) (data : FormValues) : list RawAnswer :=
  map (fun question =>
         mkRawAnswer (q_id question) (Js.orElse (data (fieldName question)) ""))
      (f_questions form).

(** "Validate required questions": the question the loop stops on, if any. *)
Fixpoint clientRequiredCheck (questions : list Question) (data : FormValues)
    : option Question :=
  match questions with
  | [] => None
  | question :: rest =>
      if q_required question
         && match data (fieldName question) with
            | Some s => negb (Js.truthy s) || (Js.trim s =? "")
            | None => true
            end
      then Some question
      else clientRequiredCheck rest data
  end.

(** [SubmitResponseData] *)
Record SubmitResponseData := mkSubmitResponseData {
  d_formId : string;
  d_answers : list RawAnswer;
  d_submitterName : option string;
  d_submitterEmail : option string
}.

(** The body [onSubmit] posts; [None] when it stops on the toast. *)
Definition onSubmit (form : Form) (data : FormValues) : option SubmitResponseData :=
  match clientRequiredCheck (f_questions form) data with
  | Some _ => None
  | None =>
      Some (mkSubmitResponseData (f_id form) (prepareAnswers form data)
              (data "submitterName") (data "submitterEmail"))
  end.

(** The request the server sees for a posted body. *)
Definition posted (body : SubmitResponseData) (ip : string)
    (userAgent : option string) : SubmitRequest :=
  mkSubmitRequest (d_formId body) (d_answers body) (d_submitterEmail body)
    (d_submitterName body) ip userAgent.

(** The record the accept path of [POST /api/responses] builds from the
    answers it cast. *)
Definition accepted (normalizeEmail : string -> string) (req : SubmitRequest)
    (env : Env) (formOid : string) (stored : list Answer) : Response :=
  mkResponse (newObjectId env) formOid stored
    (option_map submitterEmail_set
       (option_map normalizeEmail (submitterEmail req)))
    (option_map Js.trim (option_map Js.trim (submitterName req)))
    (ip req) (userAgent req) (now env).

(** The document [POST /api/forms] hands to [save], with the questions it
    cast. *)
Definition drafted (user : string) (body : CreateBody) (env : FormEnv)
    (questions : list Question) : Form :=
  mkForm (newFormId env) (Js.trim (c_title body))
    (option_map Js.trim (c_description body)) user questions true None
    (mergeSettings defaultSettings
       (orDefault (c_settings body) (mkSettingsInput None None None))).

(** The document [PUT /api/forms/:id] hands to [save]: the stored form under
    the fields the body carries, with the given questions. *)
Definition edited (form : Form) (body : UpdateBody) (questions : list Question)
    : Form :=
  mkForm (f_id form)
    (orDefault (option_map Js.trim (u_title body)) (f_title form))
    (match u_description body with
     | Some d => Some (Js.trim d)
     | None => f_description form
     end)
    (f_creator form) questions
    (orDefault (u_isActive body) (f_isActive form))
    (f_publicUrl form)
    (match u_settings body with
     | Some input => mergeSettings (f_settings form) input
     | None => f_settings form
     end).

(* ================================================================== *)
(** ** frontend/src/pages/CreateForm.tsx and EditForm.tsx: onSubmit *)

(** A question as the two editors hold it: [Omit<Question, '_id'>]. *)
Record EditorQuestion := mkEditorQuestion {
  e_text : string;
  e_type : QuestionType;
  e_options : option (list string);
  e_required : bool;
  e_order : nat
}.

(** The toasts the editors stop on. *)
Inductive EditorError :=
| NoQuestions
| FewOptions (index : nat)
| NoText (index : nat).

(** The loop "Validate multiple-choice questions have options", which also
    asks for a text. *)
Fixpoint editorLoop (index : nat) (questions : list EditorQuestion)
    : option EditorError :=
  match questions with
  | [] => None
  | question :: rest =>
      if QuestionType_eqb (e_type question) MultipleChoice
         && match e_options question with
            | None => true
            | Some options => (List.length options <? 2)%nat
            end
      then Some (FewOptions index)
      else if negb (Js.truthy (Js.trim (e_text question)))
      then Some (NoText index)
      else editorLoop (S index) rest
  end.

(** The checks of [onSubmit] before it calls the API. *)
Definition editorCheck (questions : list EditorQuestion) : option EditorError :=
  if (List.length questions =? 0)%nat then Some NoQuestions
  else editorLoop 0 questions.

(** The question as the server reads it from the posted JSON. *)
Definition asInput (question : EditorQuestion) : QuestionInput :=
  mkQuestionInput None (e_text question) (e_type question)
    (e_options question) (Some (e_required question)).

(** The body [CreateForm] posts; [None] when it stops on a toast. *)
Definition createSubmit (title description : string)
    (questions : list EditorQuestion) (settings : Settings) : option CreateBody :=
  match editorCheck questions with
  | Some _ => None
  | None =>
      Some (mkCreateBody title (Some description) (map asInput questions)
              (Some (mkSettingsInput (Some (allowMultipleResponses settings))
                       (Some (requireEmail settings)) (Some (theme settings)))))
  end.

(** The body [EditForm] puts; [None] when it stops on a toast. *)
Definition editSubmit (title description : string)
    (questions : list EditorQuestion) (isActive : bool) (settings : Settings)
    : option UpdateBody :=
  match editorCheck questions with
  | Some _ => None
  | None =>
      Some (mkUpdateBody (Some title) (Some description)
              (Some (map asInput questions)) (Some isActive)
              (Some (mkSettingsInput (Some (allowMultipleResponses settings))
                       (Some (requireEmail settings)) (Some (theme settings)))))
  end.

(* ================================================================== *)
(** ** Requests to the routes that write, one after the other *)


Section Served.

Variable isEmail : string -> bool.
Variable normalizeEmail : string -> string.



End Served.

(* ================================================================== *)
(** ** Well-formed documents *)

(** The string is an [ObjectId] as [toString()] writes it. *)
Definition isObjectId (s : string) : Prop := castObjectId s = Returned s.

(** What [POST /api/forms] establishes for the form it creates: a title of
    1 to 200 characters, 1 to 10 questions numbered from 1, none without
    text, and at least two options for every multiple-choice question. *)
Definition formOk (form : Form) : Prop :=
  1 <= String.length (f_title form) <= 200
  /\ 1 <= List.length (f_questions form) <= 10
  /\ map q_order (f_questions form) = seq 1 (List.length (f_questions form))
  /\ Forall (fun q => q_text q <> "") (f_questions form)
  /\ Forall (fun q => q_type q = MultipleChoice -> 2 <= List.length (q_options q))
       (f_questions form).

(* ================================================================== *)
(** * Scenarios *)

Module Scenario.

(** Stand-ins for validator.js in the scenarios: a string holding an [@]
    counts as an address, and normalizing puts it in lower case. *)
Definition isEmail (s : string) : bool :=
  existsb (Ascii.eqb "@") (list_ascii_of_string s).

Definition normalizeEmail (s : string) : string := Js.toLowerCase s.

Definition formA : string := "64b000000000000000000001".
Definition formB : string := "64b000000000000000000002".
Definition formC : string := "64b000000000000000000003".
Definition owner : string := "64b0000000000000000000c0".
Definition q1 : string := "64b0000000000000000000a1".
Definition q2 : string := "64b0000000000000000000a2".
Definition q9 : string := "64b0000000000000000000ff".

Definition comments : Question :=
  mkQuestion q1 "Comments" TextQuestion [] true 1.

Definition extra : Question :=
  mkQuestion q2 "Anything else" TextQuestion [] false 2.

Definition grade : Question :=
  mkQuestion q1 "Grade" MultipleChoice ["A"; "B"] true 1.

(** One required text question and one optional one; one response each. *)
Definition onceForm : Form :=
  mkForm formA "Visit" None owner [comments; extra] true (Some "form-1-abc")
    (mkSettings false false Light).

(** One required multiple-choice question. *)
Definition choiceForm : Form :=
  mkForm formB "Course" None owner [grade] true (Some "form-2-abc")
    (mkSettings true false Light).

(** A form that was switched off. *)
Definition closedForm : Form :=
  mkForm formC "Closed" None owner [comments] false (Some "form-3-abc")
    (mkSettings true false Light).

Definition db0 : Db := mkDb [onceForm; choiceForm; closedForm] [].

Definition env1 : Env := mkEnv "64b0000000000000000000e1" 1000.
Definition env2 : Env := mkEnv "64b0000000000000000000e2" 2000.

Definition request (form : string) (answers : list RawAnswer)
    (email : option string) : SubmitRequest :=
  mkSubmitRequest form answers email None "203.0.113.7" None.

Definition bothAnswered : list RawAnswer :=
  [mkRawAnswer q1 "Fine"; mkRawAnswer q2 "No"].

(** The database after "a@x.com" answered [onceForm]. *)
Definition db1 : Db :=
  snd (submit isEmail normalizeEmail db0
         (request formA bothAnswered (Some "a@x.com")) env1).

(** The database after a requester without address answered [onceForm]. *)
Definition db1' : Db :=
  snd (submit isEmail normalizeEmail db0 (request formA bothAnswered None) env1).



(** The required question answered with three spaces. *)
Definition blankAnswered : list RawAnswer :=
  [mkRawAnswer q1 "   "; mkRawAnswer q2 "No"].

(** The second answer names a question the form does not have. *)
Definition strayAnswered : list RawAnswer :=
  [mkRawAnswer q1 "Fine"; mkRawAnswer q9 "No"].


(** Answers to the multiple-choice question of [choiceForm]. *)
Definition graded (id value : string) : Response :=
  mkResponse id formB [mkAnswer q1 "Grade" MultipleChoice value] None None
    "203.0.113.7" None 1000.

Definition responseA : Response := graded "64b0000000000000000000e1" "A".
Definition responseB : Response := graded "64b0000000000000000000e2" "B".

(** A response that names the same question twice. *)
Definition responseTwice : Response :=
  mkResponse "64b0000000000000000000e3" formB
    [mkAnswer q1 "Grade" MultipleChoice "A"; mkAnswer q1 "Grade" MultipleChoice "B"]
    None None "203.0.113.7" None 1000.

(** A multiple-choice question whose options are method names. *)
Definition formD : string := "64b000000000000000000004".

Definition method : Question :=
  mkQuestion q1 "Which method prints an object" MultipleChoice
    ["toString"; "valueOf"] true 1.

Definition methodForm : Form :=
  mkForm formD "Quiz" None owner [method] true (Some "form-4-abc")
    (mkSettings true false Light).

Definition dbQuiz : Db := mkDb [methodForm] [].

(** The database after one respondent chose "toString". *)
Definition dbQuiz1 : Db :=
  snd (submit isEmail normalizeEmail dbQuiz
         (request formD [mkRawAnswer q1 "toString"] None) env1).

(** Creating a form and editing it twice. *)
Definition formEnv1 : FormEnv :=
  mkFormEnv 1700000000000 "0.4fzyo82mvyr" "64b000000000000000000005"
    (fun _ => "64b0000000000000000000b1").

Definition formEnv2 : FormEnv :=
  mkFormEnv 1700000000999 "0.x8k2j5n1qpd" "64b000000000000000000006"
    (fun _ => "64b0000000000000000000b2").

Definition surveyBody : CreateBody :=
  mkCreateBody "Survey" None
    [mkQuestionInput None "How was it" TextQuestion None (Some true)] None.

Definition rename : UpdateBody :=
  mkUpdateBody (Some "Survey 2") None None (Some false) None.

Definition requestion : UpdateBody :=
  mkUpdateBody None None
    (Some [mkQuestionInput None "Grade" MultipleChoice (Some ["A"; "B"]) None])
    None (Some (mkSettingsInput (Some true) None (Some Dark))).

Definition edits : list FormRequest :=
  [PutForm "64b000000000000000000005" owner rename formEnv2;
   PutForm "64b000000000000000000005" owner requestion formEnv2].

(** The form [surveyBody] creates in [db0], and the collection with it. *)
Definition survey : Form :=
  mkForm "64b000000000000000000005" "Survey" None owner
    [mkQuestion "64b0000000000000000000b1" "How was it" TextQuestion [] true 1]
    true (Some "form-1700000000000-4fzyo82mv") defaultSettings.

Definition dbSurvey : Db := mkDb (forms db0 ++ [survey]) [].

(** What a respondent typed into [onceForm]: the required question
    answered, the optional one left blank. *)
Definition typed : FormValues :=
  fun field => if field =? "question_64b0000000000000000000a1"
               then Some "Fine" else None.

(** Both questions answered. *)
Definition typedBoth : FormValues :=
  fun field => if field =? "question_64b0000000000000000000a1" then Some "Fine"
               else if field =? "question_64b0000000000000000000a2" then Some "No"
               else None.

(** A user who created none of the forms. *)
Definition visitor : string := "64b0000000000000000000c1".

(** The collection after the owner deleted [onceForm], which had one
    response. *)
Definition dbDeleted : Db := snd (deleteForm db1 formA owner).

(** A stand-in for [toISOString] in the scenarios. *)
Definition isoStamp (t : nat) : string := "2023-11-14T22:13:20.000Z".

(** A response whose two answers carry the same question text. *)
Definition responseSameText : Response :=
  mkResponse "64b0000000000000000000e4" formA
    [mkAnswer q1 "Comments" TextQuestion "first";
     mkAnswer q2 "Comments" TextQuestion "second"]
    None None "203.0.113.7" None 1000.

(** The response stored in [db1]. *)
Definition firstStored : Response := hd responseA (responses db1).

(** The edit page of [onceForm] with one question kept, and what it puts. *)
Definition sheet : list EditorQuestion :=
  [mkEditorQuestion "Comments" TextQuestion (Some []) true 1].

Definition sheetBody : UpdateBody :=
  mkUpdateBody (Some "Visit") (Some "") (Some (map asInput sheet)) (Some true)
    (Some (mkSettingsInput (Some false) (Some false) (Some Light))).

(** [onceForm] after that edit, in the collection that holds one response
    to it. *)
Definition formEdited : Form :=
  mkForm formA "Visit" (Some "") owner
    [mkQuestion "64b0000000000000000000b2" "Comments" TextQuestion [] true 1]
    true (Some "form-1-abc") (mkSettings false false Light).

Definition dbEdited : Db := snd (updateForm db1 formA owner sheetBody formEnv2).


(** A form with a multiple-choice question, as posted and as created. *)
Definition formEnv3 : FormEnv :=
  mkFormEnv 1700000001500 "0.z3k9q1x7w2b" "64b000000000000000000007"
    (fun index => if (index =? 0)%nat then "64b0000000000000000000b3"
                  else "64b0000000000000000000b4").

Definition pollBody : CreateBody :=
  mkCreateBody " Poll " None
    [mkQuestionInput None "Pick one" MultipleChoice (Some ["Yes"; " No "]) (Some true);
     mkQuestionInput None "Why" TextQuestion None None]
    None.

Definition poll : Form :=
  mkForm "64b000000000000000000007" "Poll" None owner
    [mkQuestion "64b0000000000000000000b3" "Pick one" MultipleChoice
       ["Yes"; "No"] true 1;
     mkQuestion "64b0000000000000000000b4" "Why" TextQuestion [] false 2]
    true (Some "form-1700000001500-z3k9q1x7w") defaultSettings.

Definition dbPoll : Db := mkDb (forms db0 ++ [poll]) [].

(** What the editors hold for such a form. *)
Definition pollSheet : list EditorQuestion :=
  [mkEditorQuestion "Pick one" MultipleChoice (Some ["Yes"; "No"]) true 1;
   mkEditorQuestion "Why" TextQuestion (Some []) false 2].

End Scenario.

Import Scenario.

(* ================================================================== *)
(** * Facts about the JavaScript primitives *)



Lemma QuestionType_eqb_eq (a b : QuestionType) :
  QuestionType_eqb a b = true <-> a = b.
Proof. destruct a, b; simpl; split; intros H; try reflexivity; discriminate. Qed.

(* ================================================================== *)
(** * POST /api/responses: the order of the checks *)


Lemma requiredCheck_None (questions : list Question) (answers : list RawAnswer) :
  requiredCheck questions answers = None <->
  Forall (fun p => q_required p = false \/ findAnswer answers p <> None) questions.
Proof.
  induction questions as [| p rest IH]; simpl.
  - split; [constructor | reflexivity].
  - destruct (findAnswer answers p) as [a |] eqn:Hfind.
    + rewrite IH. split.
      * intros H. constructor; [right; congruence | assumption].
      * intros H. now inversion H.
    + destruct (q_required p) eqn:Hp.
      * split; [discriminate |].
        intros H. inversion H as [| ? ? [Hf | Hf] ?]; subst; congruence.
      * rewrite IH. split.
        -- intros H. constructor; [now left | assumption].
        -- intros H. now inversion H.
Qed.






(** The normalization throws exactly when some answer names no question. *)
Lemma normalize_Threw (form : Form) (answers : list RawAnswer) :
  normalize form answers = Threw <->
  exists a, In a answers /\ findQuestion form (a_questionId a) = None.
Proof.
  induction answers as [| a rest IH]; simpl.
  - split; [discriminate | intros [a [[] _]]].
  - destruct (findQuestion form (a_questionId a)) as [question |] eqn:Hfind.
    + destruct (normalize form rest) as [tail |] eqn:Hrest; simpl.
      * split; [discriminate |].
        intros [b [[<- | Hin] Hnone]]; [congruence |].
        destruct IH as [_ IH]. discriminate IH. now exists b.
      * split; [| reflexivity].
        intros _. destruct IH as [IH _]. destruct (IH eq_refl) as [b [Hin Hb]].
        exists b. split; [now right | assumption].
    + split; [| reflexivity].
      intros _. exists a. split; [now left | assumption].
Qed.

Section SubmitFacts.

Variable isEmail : string -> bool.
Variable normalizeEmail : string -> string.


(** Whatever the request, a request that fails express-validator is
    answered with the validation errors and nothing is stored. *)
Lemma submit_invalid (db : Db) (req : SubmitRequest) (env : Env) :
  validationResult isEmail req <> [] ->
  submit isEmail normalizeEmail db req env = (ValidationFailed (validationResult isEmail req), db).
Proof.
  unfold submit.
  destruct (validationResult isEmail req); [congruence | reflexivity].
Qed.

Lemma wildcardErrors_failing (ok : RawAnswer -> bool) (err : nat -> FieldError)
    (index : nat) (l : list RawAnswer) (a : RawAnswer) :
  In a l -> ok a = false -> wildcardErrors ok err index l <> [].
Proof.
  revert index. induction l as [| b rest IH]; intros index Hin Hok; simpl.
  - contradiction.
  - destruct Hin as [-> | Hin].
    + rewrite Hok. discriminate.
    + destruct (ok b); simpl; [now apply IH | discriminate].
Qed.

(** An answer holding the empty string stops the request at
    express-validator, whatever the form asks. *)
Lemma empty_answer_rejected (db : Db) (req : SubmitRequest) (env : Env)
    (a : RawAnswer) :
  In a (answers req) ->
  a_answer a = "" ->
  submit isEmail normalizeEmail db req env
  = (ValidationFailed (validationResult isEmail req), db).
Proof.
  intros Hin Hempty. apply submit_invalid. unfold validationResult.
  intros Hnil. do 3 (apply app_eq_nil in Hnil; destruct Hnil as [_ Hnil]).
  apply app_eq_nil in Hnil. destruct Hnil as [Hnil _].
  revert Hnil. apply (wildcardErrors_failing _ _ _ _ a Hin).
  now rewrite Hempty.
Qed.

(** C5, amended: an inactive form answers every request that passed
    express-validator with [FormUnavailable]. *)
Theorem inactive_form_unavailable (db : Db) (req : SubmitRequest) (env : Env)
    (form : Form) :
  reaches isEmail db req form ->
  f_isActive form = false ->
  submit isEmail normalizeEmail db req env = (FormUnavailable, db).
Proof.
  intros (Hvalid & oid & Hcast & Hfind) Hinactive.
  unfold submit. rewrite Hvalid.
  unfold submitBody. rewrite Hcast. simpl. rewrite Hfind, Hinactive.
  reflexivity.
Qed.

(** C6, amended: on an active form, a request that passed
    express-validator with a number of answers other than the number of
    questions is answered with [AnswerCountMismatch], whatever the answers
    hold. *)
Theorem answer_count_mismatch (db : Db) (req : SubmitRequest) (env : Env)
    (form : Form) :
  reaches isEmail db req form ->
  f_isActive form = true ->
  List.length (answers req) <> List.length (f_questions form) ->
  submit isEmail normalizeEmail db req env = (AnswerCountMismatch, db).
Proof.
  intros (Hvalid & oid & Hcast & Hfind) Hactive Hlen.
  unfold submit. rewrite Hvalid.
  unfold submitBody. rewrite Hcast. simpl. rewrite Hfind, Hactive. simpl.
  apply Nat.eqb_neq in Hlen. rewrite Hlen. reflexivity.
Qed.

(** The reply once the form is loaded, active and the counts agree. *)
Lemma submit_checked (db : Db) (req : SubmitRequest) (env : Env) (form : Form) :
  reaches isEmail db req form ->
  f_isActive form = true ->
  List.length (answers req) = List.length (f_questions form) ->
  submit isEmail normalizeEmail db req env =
  match requiredCheck (f_questions form) (answers req) with
  | Some question => (RequiredQuestionUnanswered question, db)
  | None =>
      match optionCheck form (answers req) with
      | Some question => (InvalidOption question, db)
      | None =>
          tryCatch (submitBody normalizeEmail db req env) (ServerError, db)
      end
  end.
Proof.
  intros (Hvalid & oid & Hcast & Hfind) Hactive Hlen.
  unfold submit. rewrite Hvalid.
  unfold submitBody. rewrite Hcast. simpl. rewrite Hfind, Hactive. simpl.
  apply Nat.eqb_eq in Hlen. rewrite Hlen. simpl.
  destruct (requiredCheck (f_questions form) (answers req)); [reflexivity |].
  destruct (optionCheck form (answers req)); reflexivity.
Qed.



(** C9, amended: when the request passed every check up to and including
    the duplicate check and some answer names no question of the form, the
    normalization throws: the reply is the 500 and nothing is stored. *)
Theorem unmatched_answer_server_error (db : Db) (req : SubmitRequest)
    (env : Env) (form : Form) (a : RawAnswer) :
  reaches isEmail db req form ->
  f_isActive form = true ->
  List.length (answers req) = List.length (f_questions form) ->
  requiredCheck (f_questions form) (answers req) = None ->
  optionCheck form (answers req) = None ->
  notDuplicate normalizeEmail db req form ->
  In a (answers req) ->
  findQuestion form (a_questionId a) = None ->
  submit isEmail normalizeEmail db req env = (ServerError, db).
Proof.
  intros Hreach Hactive Hlen Hrequired Hoption Hdup Hin Hnone.
  rewrite (submit_checked db req env form Hreach Hactive Hlen),
    Hrequired, Hoption.
  destruct Hreach as (Hvalid & oid & Hcast & Hfind).
  unfold submitBody. rewrite Hcast. simpl. rewrite Hfind, Hactive. simpl.
  apply Nat.eqb_eq in Hlen. rewrite Hlen, Hrequired, Hoption. simpl.
  assert (Hthrow : normalize form (answers req) = Threw).
  { apply normalize_Threw. now exists a. }
  assert (Hpass : negb (allowMultipleResponses (f_settings form))
                  && isSome (Response_findOne db oid
                               (Js.orElse (option_map normalizeEmail
                                             (submitterEmail req)) (ip req)))
                  = false).
  { destruct Hdup as [Hallow | Hnone'].
    - now rewrite Hallow.
    - unfold duplicateKey in Hnone'. rewrite (Hnone' oid Hcast). simpl.
      apply andb_false_r. }
  rewrite Hpass, Hthrow. reflexivity.
Qed.

End SubmitFacts.

(** The duplicate check reads [submitterEmail] and nothing else of a stored
    response: records that were stored without an address are never found,
    whatever [ipAddress] they hold. *)
Lemma Response_findOne_anonymous (db : Db) (formOid key : string) :
  Forall (fun r => r_form r = formOid -> r_submitterEmail r = None)
         (responses db) ->
  Response_findOne db formOid key = None.
Proof.
  unfold Response_findOne. induction (responses db) as [| r rest IH]; simpl.
  - reflexivity.
  - intros H. inversion H as [| ? ? Hr Hrest]; subst.
    destruct (r_form r =? formOid) eqn:Hform; simpl.
    + apply String.eqb_eq in Hform. rewrite (Hr Hform). now apply IH.
    + now apply IH.
Qed.


(** The scenario of the specification: with [allowMultipleResponses = false]
    and a response of "a@x.com" stored, "a@x.com" is turned away and
    "b@x.com" is accepted. *)
Example same_email_duplicate :
  fst (submit isEmail normalizeEmail db1
         (request formA bothAnswered (Some "a@x.com")) env2)
  = DuplicateSubmission.
Proof. vm_compute. reflexivity. Qed.

Example other_email_created :
  fst (submit isEmail normalizeEmail db1
         (request formA bothAnswered (Some "b@x.com")) env2)
  = Created (newObjectId env2).
Proof. vm_compute. reflexivity. Qed.

(** C1: on a form with [allowMultipleResponses = false], a requester who
    gives no address answers twice from the same [req.ip]; the first
    response is stored with that [ipAddress], and the second request is
    accepted as well: the lookup compares [req.ip] with the [submitterEmail]
    of the stored responses, not with their [ipAddress]. *)
Theorem anonymous_resubmission_created :
  allowMultipleResponses (f_settings onceForm) = false
  /\ map (fun r => (r_form r, r_submitterEmail r, r_ipAddress r)) (responses db1')
     = [(formA, None, "203.0.113.7")]
  /\ ip (request formA bothAnswered None) = "203.0.113.7"
  /\ fst (submit isEmail normalizeEmail db1' (request formA bothAnswered None) env2)
     = Created (newObjectId env2)
  /\ List.length
       (responses
          (snd (submit isEmail normalizeEmail db1'
                  (request formA bothAnswered None) env2)))
     = 2.
Proof. vm_compute. repeat split; reflexivity. Qed.

Lemma reaches_scenario (form : Form) (id : string) (answers : list RawAnswer)
    (email : option string) :
  validationResult isEmail (request id answers email) = [] ->
  castObjectId id = Returned id ->
  Form_findById db0 id = Some form ->
  forall responses,
    reaches isEmail (mkDb (forms db0) responses) (request id answers email) form.
Proof.
  intros Hvalid Hcast Hfind responses. split; [assumption |].
  exists id. split; assumption.
Qed.

(** C5, as stated, fails: the inactive form answers a request whose
    [answers] is empty with the validation errors, not with
    [FormUnavailable]. *)
Lemma inactive_form_validation_first :
  Form_findById db0 formC = Some closedForm
  /\ f_isActive closedForm = false
  /\ submit isEmail normalizeEmail db0 (request formC [] None) env1
     = (ValidationFailed [ErrAnswers], db0)
  /\ fst (submit isEmail normalizeEmail db0 (request formC [] None) env1)
     <> FormUnavailable.
Proof. vm_compute. repeat split; try reflexivity. discriminate. Qed.

Lemma inactive_form_unavailable_witness :
  reaches isEmail db0 (request formC [mkRawAnswer q1 "Fine"] None) closedForm
  /\ f_isActive closedForm = false
  /\ submit isEmail normalizeEmail db0
       (request formC [mkRawAnswer q1 "Fine"] None) env1
     = (FormUnavailable, db0).
Proof.
  assert (H : reaches isEmail db0 (request formC [mkRawAnswer q1 "Fine"] None)
                closedForm).
  { apply (reaches_scenario closedForm formC _ None); reflexivity. }
  split; [exact H |]. split; [reflexivity |].
  apply (inactive_form_unavailable isEmail normalizeEmail db0 _ env1 closedForm H).
  reflexivity.
Defined.

(** C6, as stated, fails: the active one-question form answers the empty
    answer sequence with the validation errors, not with
    [AnswerCountMismatch]. *)
Lemma empty_answers_validation_first :
  Form_findById db0 formB = Some choiceForm
  /\ f_isActive choiceForm = true
  /\ List.length (@nil RawAnswer) <> List.length (f_questions choiceForm)
  /\ submit isEmail normalizeEmail db0 (request formB [] None) env1
     = (ValidationFailed [ErrAnswers], db0)
  /\ fst (submit isEmail normalizeEmail db0 (request formB [] None) env1)
     <> AnswerCountMismatch.
Proof. vm_compute. repeat split; try reflexivity; discriminate. Qed.

Lemma answer_count_mismatch_witness :
  reaches isEmail db0 (request formB bothAnswered None) choiceForm
  /\ f_isActive choiceForm = true
  /\ List.length (answers (request formB bothAnswered None))
     <> List.length (f_questions choiceForm)
  /\ submit isEmail normalizeEmail db0 (request formB bothAnswered None) env1
     = (AnswerCountMismatch, db0).
Proof.
  assert (H : reaches isEmail db0 (request formB bothAnswered None) choiceForm).
  { apply (reaches_scenario choiceForm formB _ None); reflexivity. }
  assert (Hlen : List.length (answers (request formB bothAnswered None))
                 <> List.length (f_questions choiceForm)).
  { simpl. discriminate. }
  split; [exact H |]. split; [reflexivity |]. split; [exact Hlen |].
  apply (answer_count_mismatch isEmail normalizeEmail db0 _ env1 choiceForm H);
    [reflexivity | exact Hlen].
Defined.


(** The server does not trim: three spaces answer a required question. *)
Example blank_answer_created :
  option_map (fun a => Js.trim (a_answer a)) (findAnswer blankAnswered comments)
  = Some ""
  /\ fst (submit isEmail normalizeEmail db0 (request formA blankAnswered None) env1)
     = Created (newObjectId env1).
Proof. vm_compute. split; reflexivity. Qed.


(** The scenario of the specification: options ["A"; "B"], answer "C" is
    rejected and answer "A" is accepted. *)
Example option_C_rejected :
  fst (submit isEmail normalizeEmail db0
         (request formB [mkRawAnswer q1 "C"] None) env1)
  = InvalidOption grade.
Proof. vm_compute. reflexivity. Qed.

Example option_A_created :
  fst (submit isEmail normalizeEmail db0
         (request formB [mkRawAnswer q1 "A"] None) env1)
  = Created (newObjectId env1).
Proof. vm_compute. reflexivity. Qed.



(** C9, as stated, fails: with a response of "a@x.com" stored and
    [allowMultipleResponses = false], a request of "a@x.com" of the right
    length that passes the required and the option loops and names a
    question the form does not have is answered with [DuplicateSubmission],
    a rejection of the taxonomy, not with the 500. *)
Lemma stray_answer_duplicate_first :
  Form_findById db1 formA = Some onceForm
  /\ List.length strayAnswered = List.length (f_questions onceForm)
  /\ requiredCheck (f_questions onceForm) strayAnswered = None
  /\ optionCheck onceForm strayAnswered = None
  /\ In (mkRawAnswer q9 "No") strayAnswered
  /\ findQuestion onceForm q9 = None
  /\ submit isEmail normalizeEmail db1
       (request formA strayAnswered (Some "a@x.com")) env2
     = (DuplicateSubmission, db1)
  /\ isTaxonomyRejection
       (fst (submit isEmail normalizeEmail db1
               (request formA strayAnswered (Some "a@x.com")) env2))
     = true.
Proof.
  vm_compute. repeat split; try reflexivity.
  right. left. reflexivity.
Qed.

Lemma unmatched_answer_server_error_witness :
  reaches isEmail db0 (request formA strayAnswered None) onceForm
  /\ notDuplicate normalizeEmail db0 (request formA strayAnswered None) onceForm
  /\ findQuestion onceForm (a_questionId (mkRawAnswer q9 "No")) = None
  /\ submit isEmail normalizeEmail db0 (request formA strayAnswered None) env1
     = (ServerError, db0).
Proof.
  assert (H : reaches isEmail db0 (request formA strayAnswered None) onceForm).
  { apply (reaches_scenario onceForm formA _ None); reflexivity. }
  assert (Hdup : notDuplicate normalizeEmail db0
                   (request formA strayAnswered None) onceForm).
  { right. intros oid _. reflexivity. }
  split; [exact H |]. split; [exact Hdup |]. split; [reflexivity |].
  apply (unmatched_answer_server_error isEmail normalizeEmail db0 _ env1 onceForm
           (mkRawAnswer q9 "No") H); try reflexivity.
  - exact Hdup.
  - right. left. reflexivity.
Defined.

(* ================================================================== *)
(** * The tally object *)

Lemma getOwn_setOwn_same (o : JsObject.t) (k : string) (v : JsObject.Value) :
  JsObject.getOwn (JsObject.setOwn o k v) k = Some v.
Proof.
  induction o as [| [k' v'] rest IH]; simpl.
  - now rewrite String.eqb_refl.
  - destruct (k' =? k) eqn:Hk; simpl; rewrite Hk; [reflexivity | exact IH].
Qed.

Lemma getOwn_setOwn_other (o : JsObject.t) (k k' : string) (v : JsObject.Value) :
  k' <> k ->
  JsObject.getOwn (JsObject.setOwn o k v) k' = JsObject.getOwn o k'.
Proof.
  intros Hneq. induction o as [| [k0 v0] rest IH]; simpl.
  - apply String.eqb_neq in Hneq. rewrite String.eqb_sym. now rewrite Hneq.
  - destruct (k0 =? k) eqn:Hk; simpl.
    + apply String.eqb_eq in Hk. subst k0.
      assert (Hk' : (k =? k') = false).
      { apply String.eqb_neq. congruence. }
      now rewrite Hk'.
    + destruct (k0 =? k'); [reflexivity | exact IH].
Qed.

Lemma getOwn_increment_same (o : JsObject.t) (k : string) :
  JsObject.getOwn (JsObject.increment o k) k
  = incremented k (JsObject.getOwn o k).
Proof.
  unfold JsObject.increment, incremented.
  destruct (JsObject.getOwn o k) as [[n | s] |] eqn:Hget.
  - apply getOwn_setOwn_same.
  - destruct (Js.truthy s); apply getOwn_setOwn_same.
  - destruct (JsObject.inherited k) as [[| name] |].
    + exact Hget.
    + apply getOwn_setOwn_same.
    + apply getOwn_setOwn_same.
Qed.

Lemma getOwn_increment_other (o : JsObject.t) (k k' : string) :
  k' <> k ->
  JsObject.getOwn (JsObject.increment o k) k' = JsObject.getOwn o k'.
Proof.
  intros Hneq. unfold JsObject.increment.
  destruct (JsObject.getOwn o k) as [[n | s] |].
  - now apply getOwn_setOwn_other.
  - destruct (Js.truthy s); now apply getOwn_setOwn_other.
  - destruct (JsObject.inherited k) as [[| name] |];
      try reflexivity; now apply getOwn_setOwn_other.
Qed.

(** A property of the tally depends only on how often its key was counted. *)
Lemma getOwn_tally (ks : list string) (o : JsObject.t) (k : string) :
  JsObject.getOwn (fold_left JsObject.increment ks o) k
  = Nat.iter (count_occ string_dec ks k) (incremented k) (JsObject.getOwn o k).
Proof.
  revert o. induction ks as [| k0 rest IH]; intros o; simpl.
  - reflexivity.
  - rewrite IH. destruct (string_dec k0 k) as [-> | Hneq].
    + rewrite getOwn_increment_same. now rewrite Nat.iter_succ_r.
    + rewrite getOwn_increment_other by congruence. reflexivity.
Qed.

(** Counting a key that [Object.prototype] does not know, from [{}]. *)
Lemma iter_incremented_plain (k : string) (n : nat) :
  JsObject.inherited k = None ->
  Nat.iter n (incremented k) None
  = match n with
    | 0 => None
    | S _ => Some (JsObject.Num n)
    end.
Proof.
  intros Hplain. induction n as [| n IH]; simpl.
  - reflexivity.
  - rewrite IH. destruct n as [| n]; simpl.
    + now rewrite Hplain.
    + f_equal. f_equal. lia.
Qed.

(** The keys of a tally stay distinct. *)
Lemma keys_setOwn (o : JsObject.t) (k : string) (v : JsObject.Value) :
  JsObject.keys (JsObject.setOwn o k v)
  = match JsObject.getOwn o k with
    | Some _ => JsObject.keys o
    | None => JsObject.keys o ++ [k]
    end.
Proof.
  unfold JsObject.keys. induction o as [| [k' v'] rest IH]; simpl.
  - reflexivity.
  - destruct (k' =? k) eqn:Hk; simpl.
    + reflexivity.
    + rewrite IH. now destruct (JsObject.getOwn rest k).
Qed.

Lemma getOwn_None_keys (o : JsObject.t) (k : string) :
  JsObject.getOwn o k = None <-> ~ In k (JsObject.keys o).
Proof.
  unfold JsObject.keys. induction o as [| [k' v'] rest IH]; simpl.
  - split; [intros _ [] | reflexivity].
  - destruct (k' =? k) eqn:Hk.
    + apply String.eqb_eq in Hk. split; [discriminate |].
      intros H. exfalso. apply H. now left.
    + apply String.eqb_neq in Hk. rewrite IH. split.
      * intros H [Heq | Hin]; [congruence | contradiction].
      * intros H Hin. apply H. now right.
Qed.

Lemma NoDup_keys_setOwn (o : JsObject.t) (k : string) (v : JsObject.Value) :
  NoDup (JsObject.keys o) -> NoDup (JsObject.keys (JsObject.setOwn o k v)).
Proof.
  intros Hnd. rewrite keys_setOwn.
  destruct (JsObject.getOwn o k) eqn:Hget; [assumption |].
  apply getOwn_None_keys in Hget.
  apply NoDup_rev in Hnd. rewrite <- (rev_involutive (JsObject.keys o ++ [k])).
  apply NoDup_rev. rewrite rev_app_distr. simpl. constructor; [| assumption].
  now rewrite <- in_rev.
Qed.

Lemma NoDup_keys_increment (o : JsObject.t) (k : string) :
  NoDup (JsObject.keys o) -> NoDup (JsObject.keys (JsObject.increment o k)).
Proof.
  intros Hnd. unfold JsObject.increment.
  destruct (JsObject.getOwn o k) as [[n | s] |].
  - now apply NoDup_keys_setOwn.
  - destruct (Js.truthy s); now apply NoDup_keys_setOwn.
  - destruct (JsObject.inherited k) as [[| name] |];
      try assumption; now apply NoDup_keys_setOwn.
Qed.

Lemma NoDup_keys_tally (ks : list string) (o : JsObject.t) :
  NoDup (JsObject.keys o) ->
  NoDup (JsObject.keys (fold_left JsObject.increment ks o)).
Proof.
  revert o. induction ks as [| k rest IH]; intros o Hnd; simpl.
  - assumption.
  - apply IH. now apply NoDup_keys_increment.
Qed.

(** With distinct keys, the properties are what [getOwn] finds. *)
Lemma In_getOwn (o : JsObject.t) (k : string) (v : JsObject.Value) :
  NoDup (JsObject.keys o) ->
  (In (k, v) o <-> JsObject.getOwn o k = Some v).
Proof.
  unfold JsObject.keys. induction o as [| [k' v'] rest IH]; simpl; intros Hnd.
  - split; [intros [] | discriminate].
  - inversion Hnd as [| ? ? Hnotin Hrest]; subst.
    destruct (k' =? k) eqn:Hk.
    + apply String.eqb_eq in Hk. subst k'. split.
      * intros [[= ->] | Hin]; [reflexivity |].
        exfalso. apply Hnotin. apply (in_map fst) in Hin. exact Hin.
      * intros [= ->]. now left.
    + apply String.eqb_neq in Hk. rewrite <- (IH Hrest). split.
      * intros [[= -> _] | Hin]; [congruence | assumption].
      * intros Hin. now right.
Qed.

Lemma NoDup_entries (o : JsObject.t) :
  NoDup (JsObject.keys o) -> NoDup o.
Proof.
  unfold JsObject.keys. intros H. now apply NoDup_map_inv in H.
Qed.

Lemma sameTally_Permutation (o o' : JsObject.t) :
  NoDup (JsObject.keys o) -> NoDup (JsObject.keys o') ->
  sameTally o o' -> Permutation o o'.
Proof.
  intros Hnd Hnd' Hsame.
  apply NoDup_Permutation; try now apply NoDup_entries.
  intros [k v]. rewrite (In_getOwn o k v Hnd), (In_getOwn o' k v Hnd').
  now rewrite (Hsame k).
Qed.

(** A numeric property is part of the sum. *)
Lemma getOwn_Num_le (o : JsObject.t) (k : string) (n : nat) :
  JsObject.getOwn o k = Some (JsObject.Num n) -> n <= JsObject.sumCounts o.
Proof.
  induction o as [| [k0 v0] rest IH]; simpl.
  - discriminate.
  - destruct (k0 =? k).
    + intros [= ->]. lia.
    + intros Hget. specialize (IH Hget). destruct v0; lia.
Qed.

(** One increment adds at most one to the numeric properties. *)
Lemma sumCounts_setOwn_Num (o : JsObject.t) (k : string) (m : nat) :
  JsObject.sumCounts (JsObject.setOwn o k (JsObject.Num m))
  = match JsObject.getOwn o k with
    | Some (JsObject.Num n) => JsObject.sumCounts o - n + m
    | _ => JsObject.sumCounts o + m
    end.
Proof.
  induction o as [| [k' v'] rest IH]; simpl.
  - lia.
  - destruct (k' =? k) eqn:Hk; simpl.
    + destruct v' as [n | s]; lia.
    + rewrite IH.
      destruct (JsObject.getOwn rest k) as [[n | s] |] eqn:Hget;
        destruct v' as [n' | s']; try lia.
      pose proof (getOwn_Num_le rest k n Hget). lia.
Qed.

Lemma sumCounts_setOwn_Str (o : JsObject.t) (k s : string) :
  JsObject.sumCounts (JsObject.setOwn o k (JsObject.Str s))
  <= JsObject.sumCounts o.
Proof.
  induction o as [| [k' v'] rest IH]; simpl.
  - lia.
  - destruct (k' =? k) eqn:Hk; simpl; destruct v' as [n | s']; lia.
Qed.

Lemma sumCounts_increment (o : JsObject.t) (k : string) :
  JsObject.sumCounts (JsObject.increment o k) <= JsObject.sumCounts o + 1.
Proof.
  unfold JsObject.increment.
  destruct (JsObject.getOwn o k) as [[n | s] |] eqn:Hget.
  - rewrite sumCounts_setOwn_Num, Hget.
    pose proof (getOwn_Num_le o k n Hget). lia.
  - destruct (Js.truthy s).
    + pose proof (sumCounts_setOwn_Str o k (s ++ "1")). lia.
    + rewrite sumCounts_setOwn_Num, Hget. lia.
  - destruct (JsObject.inherited k) as [[| name] |].
    + lia.
    + pose proof (sumCounts_setOwn_Str o k (JsObject.functionSource name ++ "1")).
      lia.
    + rewrite sumCounts_setOwn_Num, Hget. lia.
Qed.

Lemma sumCounts_tally (ks : list string) (o : JsObject.t) :
  JsObject.sumCounts (fold_left JsObject.increment ks o)
  <= JsObject.sumCounts o + List.length ks.
Proof.
  revert o. induction ks as [| k rest IH]; intros o; simpl.
  - lia.
  - specialize (IH (JsObject.increment o k)).
    pose proof (sumCounts_increment o k). lia.
Qed.

(* ================================================================== *)
(** * GET /api/responses/form/:formId/summary: what the loop computes *)

(** The loop over the responses, from any accumulator. *)
Lemma countResponse_fold (question : Question) (responses : list Response)
    (acc : QuestionSummary) :
  fold_left (countResponse question) responses acc
  = mkQuestionSummary (s_questionId acc) (s_questionText acc)
      (s_questionType acc)
      (totalAnswers acc + List.length (counted question responses))
      (if QuestionType_eqb (q_type question) MultipleChoice
       then fold_left JsObject.increment
              (map answer (counted question responses)) (s_answers acc)
       else s_answers acc).
Proof.
  revert acc. induction responses as [| r rest IH]; intros acc; simpl.
  - rewrite Nat.add_0_r. destruct acc; simpl.
    now destruct (QuestionType_eqb (q_type question) MultipleChoice).
  - rewrite IH. unfold countResponse, counted. simpl.
    fold (counted question rest).
    destruct (findStoredAnswer r question) as [a |]; simpl.
    + destruct (QuestionType_eqb (q_type question) MultipleChoice); f_equal; lia.
    + reflexivity.
Qed.

Lemma summarizeQuestion_eq (responses : list Response) (question : Question) :
  summarizeQuestion responses question
  = mkQuestionSummary (q_id question) (q_text question) (q_type question)
      (List.length (counted question responses))
      (if QuestionType_eqb (q_type question) MultipleChoice
       then fold_left JsObject.increment
              (map answer (counted question responses)) JsObject.empty
       else JsObject.empty).
Proof. unfold summarizeQuestion. now rewrite countResponse_fold. Qed.

(** Each response is counted once if it holds an answer naming the question,
    however many such answers it holds. *)
Lemma counted_length (question : Question) (responses : list Response) :
  List.length (counted question responses)
  = List.length (filter (answersQuestion question) responses).
Proof.
  unfold counted, answersQuestion, findStoredAnswer.
  induction responses as [| r rest IH]; simpl.
  - reflexivity.
  - rewrite length_app, IH.
    destruct (find (fun a => questionId a =? q_id question) (r_answers r))
      as [a |] eqn:Hfind.
    + assert (He : existsb (fun a => questionId a =? q_id question) (r_answers r)
                   = true).
      { apply existsb_exists. exists a. apply find_some in Hfind. exact Hfind. }
      now rewrite He.
    + assert (He : existsb (fun a => questionId a =? q_id question) (r_answers r)
                   = false).
      { destruct (existsb _ (r_answers r)) eqn:He; [| reflexivity].
        apply existsb_exists in He. destruct He as [a [Hin Ha]].
        pose proof (find_none _ _ Hfind a Hin) as Hn. simpl in Hn. congruence. }
      now rewrite He.
Qed.

Lemma counted_Permutation (question : Question) (rs rs' : list Response) :
  Permutation rs rs' ->
  Permutation (counted question rs) (counted question rs').
Proof.
  intros H. unfold counted. now apply Permutation_flat_map.
Qed.

(** Enumeration writes every property once: it only reorders them. *)
Lemma insertIndexed_Permutation (e : N * (string * JsObject.Value))
    (l : list (N * (string * JsObject.Value))) :
  Permutation (JsObject.insertIndexed e l) (e :: l).
Proof.
  induction l as [| e' rest IH]; simpl.
  - apply Permutation_refl.
  - destruct (fst e <? fst e')%N; [apply Permutation_refl |].
    apply Permutation_trans with (e' :: e :: rest).
    + now apply perm_skip.
    + apply perm_swap.
Qed.

Lemma indexed_Permutation (o : JsObject.t) :
  Permutation (map snd (JsObject.indexed o))
    (filter (fun e => isSome (JsObject.arrayIndex (fst e))) o).
Proof.
  induction o as [| [k v] rest IH]; simpl.
  - apply Permutation_refl.
  - destruct (JsObject.arrayIndex k) as [n |]; simpl; [| exact IH].
    apply Permutation_trans
      with (map snd ((n, (k, v)) :: JsObject.indexed rest)).
    + apply Permutation_map. apply insertIndexed_Permutation.
    + simpl. now apply perm_skip.
Qed.

Lemma filter_split_Permutation {A : Type} (p : A -> bool) (l : list A) :
  Permutation (filter p l ++ filter (fun x => negb (p x)) l) l.
Proof.
  induction l as [| x rest IH]; simpl.
  - apply Permutation_refl.
  - destruct (p x); simpl.
    + now apply perm_skip.
    + apply Permutation_sym.
      apply Permutation_trans with (x :: filter p rest
                                      ++ filter (fun y => negb (p y)) rest).
      * apply perm_skip. now apply Permutation_sym.
      * apply Permutation_middle.
Qed.

Lemma entries_Permutation (o : JsObject.t) :
  Permutation (JsObject.entries o) o.
Proof.
  unfold JsObject.entries, JsObject.named.
  apply Permutation_trans
    with (filter (fun e => isSome (JsObject.arrayIndex (fst e))) o
          ++ filter (fun e => negb (isSome (JsObject.arrayIndex (fst e)))) o).
  - apply Permutation_app_tail. apply indexed_Permutation.
  - apply (filter_split_Permutation
             (fun e => isSome (JsObject.arrayIndex (fst e)))).
Qed.

Lemma sameEntry_summarizeQuestion (question : Question) (rs rs' : list Response) :
  Permutation rs rs' ->
  sameEntry (summarizeQuestion rs question) (summarizeQuestion rs' question).
Proof.
  intros Hperm. pose proof (counted_Permutation question rs rs' Hperm) as Hc.
  rewrite !summarizeQuestion_eq.
  assert (Hsame : sameTally
            (if QuestionType_eqb (q_type question) MultipleChoice
             then fold_left JsObject.increment
                    (map answer (counted question rs)) JsObject.empty
             else JsObject.empty)
            (if QuestionType_eqb (q_type question) MultipleChoice
             then fold_left JsObject.increment
                    (map answer (counted question rs')) JsObject.empty
             else JsObject.empty)).
  { destruct (QuestionType_eqb (q_type question) MultipleChoice);
      [| intros k; reflexivity].
    intros k. rewrite !getOwn_tally. f_equal.
    apply (Permutation_count_occ string_dec). now apply Permutation_map. }
  assert (Hperm' : Permutation
            (if QuestionType_eqb (q_type question) MultipleChoice
             then fold_left JsObject.increment
                    (map answer (counted question rs)) JsObject.empty
             else JsObject.empty)
            (if QuestionType_eqb (q_type question) MultipleChoice
             then fold_left JsObject.increment
                    (map answer (counted question rs')) JsObject.empty
             else JsObject.empty)).
  { apply sameTally_Permutation; try exact Hsame;
      destruct (QuestionType_eqb (q_type question) MultipleChoice);
      try apply NoDup_keys_tally; constructor. }
  unfold sameEntry. simpl.
  split; [reflexivity |]. split; [reflexivity |]. split; [reflexivity |].
  split; [now apply Permutation_length |].
  split; [exact Hsame |]. split; [exact Hperm' |].
  apply Permutation_trans with (1 := entries_Permutation _).
  apply Permutation_trans with (1 := Hperm').
  apply Permutation_sym. apply entries_Permutation.
Qed.

(** C3, amended: for two orderings of the same responses, the summaries
    hold the same [totalResponses] and, question by question in form order,
    the same identification, the same [totalAnswers] and tallies with the
    same properties and values; the properties of a tally, as the object
    holds them and as they are written, are the same up to their order. *)
Theorem summarize_permutation (form : Form) (rs rs' : list Response) :
  Permutation rs rs' ->
  totalResponses (summarize form rs) = totalResponses (summarize form rs')
  /\ Forall2 sameEntry (questions (summarize form rs))
       (questions (summarize form rs')).
Proof.
  intros Hperm. unfold summarize, buildSummary. simpl. split.
  - now apply Permutation_length.
  - induction (f_questions form) as [| question rest IH]; simpl.
    + constructor.
    + constructor; [| exact IH].
      now apply sameEntry_summarizeQuestion.
Qed.

(** C3, as stated, fails: the two orderings of two responses are written
    with the keys "A" and "B" of the tally in different orders. *)
Lemma summary_depends_on_order :
  Permutation [responseA; responseB] [responseB; responseA]
  /\ map (fun s => JsObject.entries (s_answers s))
       (questions (summarize choiceForm [responseA; responseB]))
     = [[("A", JsObject.Num 1); ("B", JsObject.Num 1)]]
  /\ map (fun s => JsObject.entries (s_answers s))
       (questions (summarize choiceForm [responseB; responseA]))
     = [[("B", JsObject.Num 1); ("A", JsObject.Num 1)]]
  /\ jsonView (summarize choiceForm [responseA; responseB])
     <> jsonView (summarize choiceForm [responseB; responseA]).
Proof.
  split; [apply perm_swap |].
  split; [reflexivity |]. split; [reflexivity |].
  vm_compute. discriminate.
Qed.

(** Keys that are array indices are written in ascending order whatever the
    order of the responses. *)
Example index_keys_ascending :
  map (fun s => map fst (JsObject.entries (s_answers s)))
    (questions (summarize choiceForm
                  [graded "64b0000000000000000000e5" "10";
                   graded "64b0000000000000000000e6" "2"]))
  = [["2"; "10"]]
  /\ map (fun s => map fst (s_answers s))
       (questions (summarize choiceForm
                     [graded "64b0000000000000000000e5" "10";
                      graded "64b0000000000000000000e6" "2"]))
     = [["10"; "2"]].
Proof. split; reflexivity. Qed.

Lemma summarize_permutation_witness :
  Permutation [responseA; responseB] [responseB; responseA]
  /\ totalResponses (summarize choiceForm [responseA; responseB])
     = totalResponses (summarize choiceForm [responseB; responseA])
  /\ Forall2 sameEntry
       (questions (summarize choiceForm [responseA; responseB]))
       (questions (summarize choiceForm [responseB; responseA])).
Proof.
  split; [apply perm_swap |].
  apply (summarize_permutation choiceForm [responseA; responseB]
           [responseB; responseA]).
  apply perm_swap.
Defined.

(** X14: what a summary holds, for keys that [Object.prototype] does not
    know. *)
Lemma summarize_entries (form : Form) (rs : list Response) :
  totalResponses (summarize form rs) = List.length rs
  /\ Forall2
       (fun q s =>
          s_questionId s = q_id q
          /\ s_questionText s = q_text q
          /\ s_questionType s = q_type q
          /\ totalAnswers s = List.length (filter (answersQuestion q) rs)
          /\ (q_type q = TextQuestion -> s_answers s = [])
          /\ (q_type q = MultipleChoice ->
              forall k, JsObject.inherited k = None ->
                JsObject.getOwn (s_answers s) k
                = match count_occ string_dec (map answer (counted q rs)) k with
                  | 0 => None
                  | S n => Some (JsObject.Num (S n))
                  end))
       (f_questions form) (questions (summarize form rs)).
Proof.
  unfold summarize, buildSummary. simpl. split; [reflexivity |].
  induction (f_questions form) as [| q rest IH]; simpl; constructor;
    [| exact IH].
  rewrite summarizeQuestion_eq. simpl. repeat split.
  - apply counted_length.
  - intros Htext. now rewrite Htext.
  - intros Hmc k Hplain. rewrite Hmc. simpl.
    rewrite getOwn_tally. simpl. rewrite iter_incremented_plain by assumption.
    now destruct (count_occ string_dec (map answer (counted q rs)) k).
Qed.

(** C10: in a summary, the [totalAnswers] of a question is the number of
    responses that hold an answer naming it, each counted once however many
    such answers it holds; it does not exceed [totalResponses], and the
    counts of the tally add up to at most [totalAnswers]. *)
Theorem totalAnswers_bounded (form : Form) (rs : list Response) :
  Forall2
    (fun q s =>
       totalAnswers s = List.length (filter (answersQuestion q) rs)
       /\ totalAnswers s <= totalResponses (summarize form rs)
       /\ JsObject.sumCounts (s_answers s) <= totalAnswers s
       /\ JsObject.sumCounts (s_answers s) <= totalResponses (summarize form rs))
    (f_questions form) (questions (summarize form rs)).
Proof.
  unfold summarize, buildSummary. simpl.
  induction (f_questions form) as [| q rest IH]; simpl; constructor;
    [| exact IH].
  rewrite summarizeQuestion_eq. simpl.
  pose proof (counted_length q rs) as Hlen.
  pose proof (filter_length_le (answersQuestion q) rs) as Hle.
  assert (Hsum : JsObject.sumCounts
                   (if QuestionType_eqb (q_type q) MultipleChoice
                    then fold_left JsObject.increment
                           (map answer (counted q rs)) JsObject.empty
                    else JsObject.empty)
                 <= List.length (counted q rs)).
  { destruct (QuestionType_eqb (q_type q) MultipleChoice); simpl; [| lia].
    pose proof (sumCounts_tally (map answer (counted q rs)) JsObject.empty) as H.
    rewrite length_map in H. simpl in H. exact H. }
  repeat split; lia.
Qed.

(** A response that names a question twice is counted once, under its first
    answer. *)
Example twice_counted_once :
  questions (summarize choiceForm [responseTwice])
  = [mkQuestionSummary q1 "Grade" MultipleChoice 1 [("A", JsObject.Num 1)]].
Proof. reflexivity. Qed.

(** C4: one respondent chose the option "toString" of a multiple-choice
    question.  The request is accepted and the summary counts one answer,
    but the tally maps "toString" to a string, the source of the function
    every object inherits followed by "1", not to the count 1. *)
Theorem inherited_name_tally :
  In "toString" (q_options method)
  /\ fst (submit isEmail normalizeEmail dbQuiz
            (request formD [mkRawAnswer q1 "toString"] None) env1)
     = Created (newObjectId env1)
  /\ getSummary dbQuiz1 formD owner
     = SummaryOk
         (mkSummary 1
            [mkQuestionSummary q1 "Which method prints an object" MultipleChoice 1
               [("toString",
                 JsObject.Str "function toString() { [native code] }1")]])
  /\ (forall s, getSummary dbQuiz1 formD owner = SummaryOk s ->
        Forall (fun q => JsObject.getOwn (s_answers q) "toString"
                         <> Some (JsObject.Num 1))
               (questions s)).
Proof.
  split; [left; reflexivity |]. split; [reflexivity |].
  assert (H : getSummary dbQuiz1 formD owner
              = SummaryOk
                  (mkSummary 1
                     [mkQuestionSummary q1 "Which method prints an object"
                        MultipleChoice 1
                        [("toString",
                          JsObject.Str "function toString() { [native code] }1")]])).
  { vm_compute. reflexivity. }
  split; [exact H |].
  intros s Hs. rewrite H in Hs. injection Hs as <-. simpl.
  constructor; [| constructor]. simpl. discriminate.
Qed.

(* ================================================================== *)
(** * The public URL of a form *)

Lemma generatePublicUrl_truthy (env : FormEnv) :
  Js.truthy (generatePublicUrl env) = true.
Proof. reflexivity. Qed.

(** The hook leaves a public URL that is set alone. *)
Lemma preSave_keeps (env : FormEnv) (form : Form) (u : string) :
  f_publicUrl form = Some u -> Js.truthy u = true -> preSave env form = form.
Proof.
  intros Hu Ht. unfold preSave. rewrite Hu. simpl. now rewrite Ht.
Qed.

Lemma preSave_id (env : FormEnv) (form : Form) :
  f_id (preSave env form) = f_id form.
Proof. unfold preSave. now destruct (negb (Js.truthyOpt (f_publicUrl form))). Qed.

Lemma find_replaceForm (l : list Form) (g : Form) (id : string) :
  find (fun f => f_id f =? id) (replaceForm l g)
  = match find (fun f => f_id f =? id) l with
    | Some f => if f_id f =? f_id g then Some g else Some f
    | None => None
    end.
Proof.
  induction l as [| h rest IH]; simpl.
  - reflexivity.
  - destruct (f_id h =? f_id g) eqn:Hhg; simpl.
    + apply String.eqb_eq in Hhg. rewrite <- Hhg.
      destruct (f_id h =? id) eqn:Hid.
      * now rewrite String.eqb_refl.
      * destruct (find (fun f => f_id f =? id) rest) as [f |] eqn:Hrest;
          [| reflexivity].
        apply find_some in Hrest. destruct Hrest as [_ Hf].
        apply String.eqb_eq in Hf.
        assert (Hne : (f_id f =? f_id h) = false).
        { rewrite Hf, String.eqb_sym. exact Hid. }
        now rewrite Hne.
    + destruct (f_id h =? id) eqn:Hid.
      * now rewrite Hhg.
      * exact IH.
Qed.

Lemma ids_replaceForm (l : list Form) (g : Form) :
  map f_id (replaceForm l g) = map f_id l.
Proof.
  induction l as [| h rest IH]; simpl.
  - reflexivity.
  - destruct (f_id h =? f_id g) eqn:Hhg; simpl.
    + apply String.eqb_eq in Hhg. now rewrite Hhg.
    + now rewrite IH.
Qed.

(** Under the unique index on [_id], the form a query finds is the form
    [findById] finds. *)
Lemma find_unique (l : list Form) (f g : Form) (id : string) :
  NoDup (map f_id l) ->
  find (fun h => f_id h =? id) l = Some f ->
  In g l -> f_id g = id -> g = f.
Proof.
  induction l as [| h rest IH]; simpl; intros Hnd Hfind Hin Hid.
  - contradiction.
  - inversion Hnd as [| ? ? Hnotin Hrest]; subst.
    destruct (f_id h =? f_id g) eqn:Hh.
    + injection Hfind as <-. destruct Hin as [-> | Hin]; [reflexivity |].
      apply String.eqb_eq in Hh. exfalso. apply Hnotin. rewrite Hh.
      now apply in_map.
    + destruct Hin as [-> | Hin].
      * now rewrite String.eqb_refl in Hh.
      * now apply IH.
Qed.

(** What a successful [POST /api/forms] stores. *)
Lemma createForm_created (db : Db) (user : string) (body : CreateBody)
    (env : FormEnv) (form : Form) (db' : Db) :
  createForm db user body env = (FormCreated form, db') ->
  f_publicUrl form = Some (generatePublicUrl env)
  /\ forms db' = forms db ++ [form]
  /\ ~ In (f_id form) (map f_id (forms db)).
Proof.
  unfold createForm.
  destruct (negb (createValid body)); [discriminate |].
  destruct (optionsCheck (map trimText (c_questions body))); [discriminate |].
  destruct (castQuestions env 0 (map trimText (c_questions body)))
    as [questions |]; simpl; [| discriminate].
  unfold Form_save.
  match goal with |- context [validForm ?f] => set (draft := f) end.
  destruct (negb (validForm draft)); simpl; [discriminate |].
  destruct (existsb _ (forms db)) eqn:Hex; simpl; [discriminate |].
  intros [= <- <-]. simpl. repeat split.
  intros Hin. apply in_map_iff in Hin. destruct Hin as [g [Hg Hgin]].
  assert (Ht : existsb
                 (fun g0 => (f_id g0 =? f_id (preSave env draft))
                            || match f_publicUrl g0, f_publicUrl (preSave env draft) with
                               | Some u, Some v => u =? v
                               | _, _ => false
                               end)
                 (forms db) = true).
  { apply existsb_exists. exists g. split; [assumption |].
    simpl in Hg. rewrite Hg. now rewrite String.eqb_refl. }
  simpl in Ht. congruence.
Qed.

(** [POST /api/forms] either stores a new form or leaves the collection
    alone. *)
Lemma createForm_outcome (db : Db) (user : string) (body : CreateBody)
    (env : FormEnv) :
  snd (createForm db user body env) = db
  \/ exists form db', createForm db user body env = (FormCreated form, db').
Proof.
  unfold createForm.
  destruct (negb (createValid body)); [now left |].
  destruct (optionsCheck (map trimText (c_questions body))); [now left |].
  destruct (castQuestions env 0 (map trimText (c_questions body)))
    as [questions |]; simpl; [| now left].
  destruct (Form_save _ _ _ _) as [[saved db'] |]; simpl; [| now left].
  right. now exists saved, db'.
Qed.

(** Neither route changes a public URL that is set, and both keep the
    [_id]s distinct. *)
Lemma serve_keeps_publicUrl (db : Db) (request : FormRequest) (id u : string)
    (f : Form) :
  NoDup (map f_id (forms db)) ->
  Form_findById db id = Some f ->
  f_publicUrl f = Some u ->
  Js.truthy u = true ->
  NoDup (map f_id (forms (snd (serve db request))))
  /\ exists f',
       Form_findById (snd (serve db request)) id = Some f'
       /\ f_publicUrl f' = Some u.
Proof.
  intros Hnd Hfind Hu Ht.
  assert (Hsame : NoDup (map f_id (forms db))
                  /\ exists f', Form_findById db id = Some f'
                                /\ f_publicUrl f' = Some u).
  { split; [assumption |]. now exists f. }
  destruct request as [user body env | id0 user body env]; simpl.
  - destruct (createForm_outcome db user body env)
      as [Hsnd | (form & db' & Hcreate)]; [now rewrite Hsnd |].
    rewrite Hcreate.
    apply createForm_created in Hcreate. destruct Hcreate as (_ & Hforms & Hfresh).
    simpl. rewrite Hforms. split.
    + rewrite map_app. simpl.
      apply NoDup_rev in Hnd. rewrite <- (rev_involutive (map f_id (forms db) ++ _)).
      apply NoDup_rev. rewrite rev_app_distr. simpl. constructor; [| assumption].
      now rewrite <- in_rev.
    + exists f. split; [| assumption].
      unfold Form_findById in *. rewrite Hforms.
      clear - Hfind. induction (forms db) as [| h rest IH]; simpl in *.
      * discriminate.
      * destruct (f_id h =? id); [assumption | now apply IH].
  - unfold updateForm.
    destruct (negb (updateValid body)); [exact Hsame |].
    destruct (castObjectId id0) as [oid |]; simpl; [| exact Hsame].
    destruct (Form_findOne db oid user) as [form |] eqn:Hone; simpl;
      [| exact Hsame].
    unfold Form_findOne in Hone. apply find_some in Hone.
    destruct Hone as [Hin Hmatch]. apply andb_prop in Hmatch.
    destruct Hmatch as [Hoid _]. apply String.eqb_eq in Hoid.
    assert (Hstep : forall questions title description isActive settings,
              let draft := mkForm (f_id form) title description (f_creator form)
                             questions isActive (f_publicUrl form) settings in
              NoDup (map f_id (replaceForm (forms db) (preSave env draft)))
              /\ exists f',
                   find (fun h => f_id h =? id)
                        (replaceForm (forms db) (preSave env draft)) = Some f'
                   /\ f_publicUrl f' = Some u).
    { intros questions title description isActive settings draft. split.
      - now rewrite ids_replaceForm.
      - rewrite find_replaceForm. unfold Form_findById in Hfind. rewrite Hfind.
        rewrite preSave_id. simpl.
        destruct (f_id f =? f_id form) eqn:Hff; [| now exists f].
        apply String.eqb_eq in Hff.
        assert (Heq : form = f).
        { apply (find_unique (forms db) f form id Hnd Hfind Hin).
          apply find_some in Hfind. destruct Hfind as [_ Hfid].
          apply String.eqb_eq in Hfid. congruence. }
        subst form. exists (preSave env draft). split; [reflexivity |].
        rewrite (preSave_keeps env draft u); [exact Hu | exact Hu | exact Ht]. }
    destruct (u_questions body) as [inputs |].
    + destruct (optionsCheck inputs); simpl; [exact Hsame |].
      destruct (castQuestions env 0 inputs) as [questions |]; simpl;
        [| exact Hsame].
      unfold Form_save.
      match goal with |- context [validForm ?d] => destruct (negb (validForm d)) end;
        simpl; [exact Hsame |].
      apply Hstep.
    + unfold Form_save.
      match goal with |- context [validForm ?d] => destruct (negb (validForm d)) end;
        simpl; [exact Hsame |].
      apply Hstep.
Qed.

Lemma serveAll_keeps_publicUrl (requests : list FormRequest) (db : Db)
    (id u : string) (f : Form) :
  NoDup (map f_id (forms db)) ->
  Form_findById db id = Some f ->
  f_publicUrl f = Some u ->
  Js.truthy u = true ->
  exists f',
    Form_findById (serveAll db requests) id = Some f'
    /\ f_publicUrl f' = Some u.
Proof.
  revert db f. induction requests as [| request rest IH]; intros db f Hnd Hfind Hu Ht.
  - now exists f.
  - unfold serveAll. simpl.
    destruct (serve_keeps_publicUrl db request id u f Hnd Hfind Hu Ht)
      as (Hnd' & f' & Hfind' & Hu').
    exact (IH _ f' Hnd' Hfind' Hu' Ht).
Qed.

(** C8: in a collection whose [_id]s are distinct, the form that
    [POST /api/forms] creates gets its public URL in that first save, and
    after any further requests to create or update forms the stored form
    still holds that same public URL. *)
Theorem publicUrl_assigned_once (db : Db) (user : string) (body : CreateBody)
    (env : FormEnv) (form : Form) (db' : Db) (later : list FormRequest) :
  NoDup (map f_id (forms db)) ->
  createForm db user body env = (FormCreated form, db') ->
  f_publicUrl form = Some (generatePublicUrl env)
  /\ exists form',
       Form_findById (serveAll db' later) (f_id form) = Some form'
       /\ f_publicUrl form' = Some (generatePublicUrl env).
Proof.
  intros Hnd Hcreate.
  pose proof (createForm_created _ _ _ _ _ _ Hcreate) as (Hurl & Hforms & Hfresh).
  split; [exact Hurl |].
  apply (serveAll_keeps_publicUrl later db' (f_id form) (generatePublicUrl env) form).
  - rewrite Hforms, map_app. simpl.
    apply NoDup_rev in Hnd. rewrite <- (rev_involutive (map f_id (forms db) ++ _)).
    apply NoDup_rev. rewrite rev_app_distr. simpl. constructor; [| assumption].
    now rewrite <- in_rev.
  - unfold Form_findById. rewrite Hforms.
    clear - Hfresh. induction (forms db) as [| h rest IH]; simpl in *.
    + now rewrite String.eqb_refl.
    + destruct (f_id h =? f_id form) eqn:Hh.
      * apply String.eqb_eq in Hh. exfalso. apply Hfresh. now left.
      * apply IH. intros Hin. apply Hfresh. now right.
  - exact Hurl.
  - apply generatePublicUrl_truthy.
Qed.

Example survey_created :
  createForm db0 owner surveyBody formEnv1 = (FormCreated survey, dbSurvey).
Proof. vm_compute. reflexivity. Qed.

(** Two edits change the title, the questions, the activation and the
    settings, and leave the public URL. *)
Example survey_edited :
  option_map (fun f => (f_title f, map q_text (f_questions f), f_isActive f,
                        theme (f_settings f), f_publicUrl f))
             (Form_findById (serveAll dbSurvey edits) (f_id survey))
  = Some ("Survey 2", ["Grade"], false, Dark, Some "form-1700000000000-4fzyo82mv").
Proof. vm_compute. reflexivity. Qed.

Lemma publicUrl_assigned_once_witness :
  NoDup (map f_id (forms db0))
  /\ createForm db0 owner surveyBody formEnv1 = (FormCreated survey, dbSurvey)
  /\ f_publicUrl survey = Some (generatePublicUrl formEnv1)
  /\ exists form',
       Form_findById (serveAll dbSurvey edits) (f_id survey) = Some form'
       /\ f_publicUrl form' = Some (generatePublicUrl formEnv1).
Proof.
  assert (Hnd : NoDup (map f_id (forms db0))).
  { simpl. repeat constructor; simpl; intuition discriminate. }
  assert (Hcreate : createForm db0 owner surveyBody formEnv1
                    = (FormCreated survey, dbSurvey)).
  { vm_compute. reflexivity. }
  split; [exact Hnd |]. split; [exact Hcreate |].
  exact (publicUrl_assigned_once db0 owner surveyBody formEnv1 survey dbSurvey
           edits Hnd Hcreate).
Defined.

(* ================================================================== *)
(** * POST /api/responses: what is stored *)

Lemma normalize_Returned (form : Form) (answers : list RawAnswer)
    (raws : list (string * string * QuestionType * string)) :
  normalize form answers = Returned raws ->
  Forall2 (fun a raw =>
             exists question,
               findQuestion form (a_questionId a) = Some question
               /\ raw = (a_questionId a, q_text question, q_type question,
                         a_answer a))
          answers raws.
Proof.
  revert raws. induction answers as [| a rest IH]; simpl; intros raws.
  - intros [= <-]. constructor.
  - destruct (findQuestion form (a_questionId a)) as [question |] eqn:Hfind;
      [| discriminate].
    destruct (normalize form rest) as [tail |]; simpl; [| discriminate].
    intros [= <-]. constructor; [| now apply IH].
    now exists question.
Qed.

Lemma castAnswers_Returned (raws : list (string * string * QuestionType * string))
    (stored : list Answer) :
  castAnswers raws = Returned stored ->
  Forall2 (fun raw s =>
             castObjectId (fst (fst (fst raw))) = Returned (questionId s)
             /\ questionText s = snd (fst (fst raw))
             /\ questionType s = snd (fst raw)
             /\ answer s = snd raw)
          raws stored.
Proof.
  revert stored. induction raws as [| [[[qid qtext] qtype] value] rest IH];
    simpl; intros stored.
  - intros [= <-]. constructor.
  - destruct (castObjectId qid) as [oid |] eqn:Hcast; simpl; [| discriminate].
    destruct (qtext =? ""); simpl; [discriminate |].
    destruct (castAnswers rest) as [tail |]; simpl; [| discriminate].
    intros [= <-]. constructor; [| now apply IH].
    simpl. now repeat split.
Qed.

Lemma castObjectId_Returned (s oid : string) :
  castObjectId s = Returned oid -> oid = Js.toLowerCase s.
Proof.
  unfold castObjectId.
  destruct (Validator.allHex s && (String.length s =? 24)%nat); [| discriminate].
  now intros [= <-].
Qed.

Section SubmitStores.

Variable isEmail : string -> bool.
Variable normalizeEmail : string -> string.

(** A request is accepted exactly when it passes every check and the
    record validates; the collection then grows by that record. *)
Lemma submit_Created_iff (db : Db) (req : SubmitRequest) (env : Env)
    (id : string) (db' : Db) :
  submit isEmail normalizeEmail db req env = (Created id, db')
  <->
  exists oid form raws stored,
    validationResult isEmail req = []
    /\ castObjectId (formId req) = Returned oid
    /\ Form_findById db oid = Some form
    /\ f_isActive form = true
    /\ List.length (answers req) = List.length (f_questions form)
    /\ requiredCheck (f_questions form) (answers req) = None
    /\ optionCheck form (answers req) = None
    /\ negb (allowMultipleResponses (f_settings form))
       && isSome (Response_findOne db oid (duplicateKey normalizeEmail req))
       = false
    /\ normalize form (answers req) = Returned raws
    /\ castAnswers raws = Returned stored
    /\ id = newObjectId env
    /\ db' = mkDb (forms db) (responses db ++ [accepted normalizeEmail req env oid stored]).
Proof.
  unfold submit, duplicateKey, accepted. split.
  - destruct (validationResult isEmail req) eqn:Hvalid; [| discriminate].
    unfold submitBody.
    destruct (castObjectId (formId req)) as [oid |] eqn:Hcast; simpl;
      [| discriminate].
    destruct (Form_findById db oid) as [form |] eqn:Hfind; [| discriminate].
    destruct (f_isActive form) eqn:Hactive; simpl; [| discriminate].
    destruct (List.length (answers req) =? List.length (f_questions form))%nat
      eqn:Hlen; simpl; [| discriminate].
    destruct (requiredCheck (f_questions form) (answers req)) eqn:Hreq;
      [discriminate |].
    destruct (optionCheck form (answers req)) eqn:Hopt; [discriminate |].
    match goal with
    | |- context [if ?c then _ else _] => destruct c eqn:Hdup
    end; simpl; [discriminate |].
    destruct (normalize form (answers req)) as [raws |] eqn:Hnorm; simpl;
      [| discriminate].
    destruct (castAnswers raws) as [stored |] eqn:Hstored; simpl;
      [| discriminate].
    intros [= <- <-]. exists oid, form, raws, stored.
    apply Nat.eqb_eq in Hlen. now repeat split.
  - intros (oid & form & raws & stored & Hvalid & Hcast & Hfind & Hactive & Hlen
            & Hreq & Hopt & Hdup & Hnorm & Hstored & -> & ->).
    rewrite Hvalid. unfold submitBody. rewrite Hcast. simpl.
    rewrite Hfind, Hactive. simpl.
    apply Nat.eqb_eq in Hlen. rewrite Hlen, Hreq, Hopt. simpl.
    rewrite Hdup, Hnorm. simpl. rewrite Hstored. reflexivity.
Qed.

(** A reply other than [Created] comes with the collection untouched. *)
Lemma submit_rejected (db : Db) (req : SubmitRequest) (env : Env) :
  (exists id, fst (submit isEmail normalizeEmail db req env) = Created id)
  \/ snd (submit isEmail normalizeEmail db req env) = db.
Proof.
  unfold submit.
  destruct (validationResult isEmail req); [| now right].
  unfold submitBody.
  destruct (castObjectId (formId req)) as [oid |]; simpl; [| now right].
  destruct (Form_findById db oid) as [form |]; [| now right].
  destruct (negb (f_isActive form)); [now right |].
  destruct (negb (List.length (answers req) =? List.length (f_questions form))%nat);
    [now right |].
  destruct (requiredCheck (f_questions form) (answers req)); [now right |].
  destruct (optionCheck form (answers req)); [now right |].
  match goal with
  | |- context [if ?c then _ else _] => destruct c
  end; simpl; [now right |].
  destruct (normalize form (answers req)) as [raws |]; simpl; [| now right].
  destruct (castAnswers raws) as [stored |]; simpl; [| now right].
  left. now exists (newObjectId env).
Qed.

(** X1: the route never touches the forms; it stores one response, last in
    the collection, exactly when it answers [Created], and nothing
    otherwise.  The stored response carries the id of the reply, the
    requester's address and as many answers as the request. *)
Theorem submit_stores (db : Db) (req : SubmitRequest) (env : Env) :
  forms (snd (submit isEmail normalizeEmail db req env)) = forms db
  /\ ((exists r,
          fst (submit isEmail normalizeEmail db req env) = Created (r_id r)
          /\ responses (snd (submit isEmail normalizeEmail db req env))
             = responses db ++ [r]
          /\ castObjectId (formId req) = Returned (r_form r)
          /\ r_ipAddress r = ip req
          /\ List.length (r_answers r) = List.length (answers req))
      \/ ((forall id,
              fst (submit isEmail normalizeEmail db req env) <> Created id)
          /\ snd (submit isEmail normalizeEmail db req env) = db)).
Proof.
  destruct (submit isEmail normalizeEmail db req env) as [reply db'] eqn:Hsubmit.
  simpl.
  destruct (submit_rejected db req env) as [[id Hid] | Hsame].
  - rewrite Hsubmit in Hid. simpl in Hid. subst reply.
    apply submit_Created_iff in Hsubmit.
    destruct Hsubmit as (oid & form & raws & stored & Hvalid & Hcast & Hfind
                         & Hactive & Hlen & Hreq & Hopt & Hdup & Hnorm & Hstored
                         & -> & ->).
    split; [reflexivity |]. left.
    exists (accepted normalizeEmail req env oid stored). simpl. repeat split; try assumption.
    apply normalize_Returned in Hnorm. apply castAnswers_Returned in Hstored.
    apply Forall2_length in Hnorm. apply Forall2_length in Hstored. congruence.
  - rewrite Hsubmit in Hsame. simpl in Hsame. subst db'.
    split; [reflexivity |]. right. split; [| reflexivity].
    intros id ->. apply submit_Created_iff in Hsubmit.
    destruct Hsubmit as (oid & form & raws & stored & _ & _ & _ & _ & _ & _ & _
                         & _ & _ & _ & _ & Hdb).
    apply (f_equal responses) in Hdb. simpl in Hdb.
    apply (f_equal (@List.length Response)) in Hdb.
    rewrite length_app in Hdb. simpl in Hdb. lia.
Qed.


End SubmitStores.

Lemma normalize_total (form : Form) (answers : list RawAnswer) :
  Forall (fun a => findQuestion form (a_questionId a) <> None) answers ->
  exists raws, normalize form answers = Returned raws.
Proof.
  intros Hall.
  destruct (normalize form answers) as [raws |] eqn:Hnorm; [now exists raws |].
  apply normalize_Threw in Hnorm. destruct Hnorm as [a [Hin Hnone]].
  rewrite Forall_forall in Hall. now destruct (Hall a Hin).
Qed.

Lemma castAnswers_total (raws : list (string * string * QuestionType * string)) :
  Forall (fun raw => isObjectId (fst (fst (fst raw)))
                     /\ snd (fst (fst raw)) <> "") raws ->
  exists stored, castAnswers raws = Returned stored.
Proof.
  induction raws as [| [[[qid qtext] qtype] value] rest IH]; simpl; intros Hall.
  - now exists [].
  - inversion Hall as [| ? ? [Hid Htext] Hrest]; subst. simpl in Hid, Htext.
    unfold isObjectId in Hid. rewrite Hid. simpl.
    apply String.eqb_neq in Htext. rewrite Htext.
    destruct (IH Hrest) as [tail ->]. simpl. now eexists.
Qed.

Section SubmitAccepts.

Variable isEmail : string -> bool.
Variable normalizeEmail : string -> string.

(** X3: a request that passes the five checks, whose answers all name a question
    of the form, is accepted when the questions carry [ObjectId]s and a
    text: the reply is [Created] with the id drawn for the record. *)
Theorem submit_accepts (db : Db) (req : SubmitRequest) (env : Env) (form : Form) :
  reaches isEmail db req form ->
  f_isActive form = true ->
  List.length (answers req) = List.length (f_questions form) ->
  requiredCheck (f_questions form) (answers req) = None ->
  optionCheck form (answers req) = None ->
  notDuplicate normalizeEmail db req form ->
  Forall (fun a => findQuestion form (a_questionId a) <> None) (answers req) ->
  Forall (fun q => isObjectId (q_id q) /\ q_text q <> "") (f_questions form) ->
  exists db',
    submit isEmail normalizeEmail db req env = (Created (newObjectId env), db').
Proof.
  intros (Hvalid & oid & Hcast & Hfind) Hactive Hlen Hreq Hopt Hdup Hnamed Hok.
  destruct (normalize_total form (answers req) Hnamed) as [raws Hnorm].
  assert (Hraws : Forall (fun raw => isObjectId (fst (fst (fst raw)))
                                     /\ snd (fst (fst raw)) <> "") raws).
  { apply normalize_Returned in Hnorm. clear - Hnorm Hok.
    induction Hnorm as [| a raw rest raws (question & Hq & ->) _ IH];
      constructor; [| exact IH].
    simpl. unfold findQuestion in Hq. apply find_some in Hq.
    destruct Hq as [Hin Heq]. apply String.eqb_eq in Heq.
    rewrite Forall_forall in Hok. destruct (Hok question Hin) as [Hid Htext].
    rewrite <- Heq. now split. }
  destruct (castAnswers_total raws Hraws) as [stored Hstored].
  eexists. apply submit_Created_iff.
  exists oid, form, raws, stored. repeat split; try assumption.
  destruct Hdup as [Hallow | Hnone].
  - now rewrite Hallow.
  - rewrite (Hnone oid Hcast). apply andb_false_r.
Qed.

(** X5: while every stored response of a form lacks an address, the form never
    answers [DuplicateSubmission], whatever [ipAddress] the responses
    hold. *)
Theorem anonymous_never_duplicate (db : Db) (req : SubmitRequest) (env : Env)
    (oid : string) :
  castObjectId (formId req) = Returned oid ->
  Forall (fun r => r_form r = oid -> r_submitterEmail r = None) (responses db) ->
  fst (submit isEmail normalizeEmail db req env) <> DuplicateSubmission.
Proof.
  intros Hcast Hanon. unfold submit.
  destruct (validationResult isEmail req); [| discriminate].
  unfold submitBody. rewrite Hcast. simpl.
  destruct (Form_findById db oid) as [form |]; [| discriminate].
  destruct (negb (f_isActive form)); [discriminate |].
  destruct (negb (List.length (answers req) =? List.length (f_questions form))%nat);
    [discriminate |].
  destruct (requiredCheck (f_questions form) (answers req)); [discriminate |].
  destruct (optionCheck form (answers req)); [discriminate |].
  rewrite (Response_findOne_anonymous db oid _ Hanon). simpl.
  rewrite andb_false_r.
  destruct (normalize form (answers req)) as [raws |]; simpl; [| discriminate].
  destruct (castAnswers raws); simpl; discriminate.
Qed.

End SubmitAccepts.

(* ================================================================== *)
(** * PublicForm.tsx against POST /api/responses *)

Lemma prepareAnswers_length (form : Form) (data : FormValues) :
  List.length (prepareAnswers form data) = List.length (f_questions form).
Proof. unfold prepareAnswers. apply length_map. Qed.

Lemma prepareAnswers_answers (form : Form) (data : FormValues)
    (question : Question) :
  In question (f_questions form) ->
  findAnswer (prepareAnswers form data) question <> None.
Proof.
  unfold findAnswer, prepareAnswers. intros Hin Hnone.
  pose proof (find_none _ _ Hnone
                (mkRawAnswer (q_id question)
                   (Js.orElse (data (fieldName question)) ""))) as H.
  simpl in H. rewrite String.eqb_refl in H.
  assert (Hmem : In (mkRawAnswer (q_id question)
                       (Js.orElse (data (fieldName question)) ""))
                    (map (fun q => mkRawAnswer (q_id q)
                                     (Js.orElse (data (fieldName q)) ""))
                         (f_questions form))).
  { apply in_map_iff. now exists question. }
  specialize (H Hmem). discriminate.
Qed.

(** X6: the client's loop lets a form through exactly when every required
    question holds a value that is not blank after trimming. *)
Theorem onSubmit_posts_iff (form : Form) (data : FormValues) :
  (exists body, onSubmit form data = Some body)
  <->
  Forall (fun q => q_required q = true ->
                   exists s, data (fieldName q) = Some s /\ Js.trim s <> "")
         (f_questions form).
Proof.
  unfold onSubmit.
  assert (Hloop : clientRequiredCheck (f_questions form) data = None <->
                  Forall (fun q => q_required q = true ->
                                   exists s, data (fieldName q) = Some s
                                             /\ Js.trim s <> "")
                         (f_questions form)).
  { induction (f_questions form) as [| q rest IH]; simpl.
    - split; [constructor | reflexivity].
    - destruct (q_required q) eqn:Hreq; simpl.
      + destruct (data (fieldName q)) as [s |] eqn:Hdata.
        * destruct (negb (Js.truthy s) || (Js.trim s =? "")) eqn:Hblank.
          -- split; [discriminate |].
             intros H. inversion H as [| ? ? Hq _]; subst.
             rewrite Hdata in Hq.
             destruct (Hq Hreq) as (s' & [= <-] & Htrim).
             apply orb_prop in Hblank. destruct Hblank as [Hb | Hb].
             ++ unfold Js.truthy in Hb. apply negb_true_iff in Hb.
                apply negb_false_iff in Hb. apply String.eqb_eq in Hb.
                subst s. now simpl in Htrim.
             ++ apply String.eqb_eq in Hb. contradiction.
          -- rewrite IH. apply orb_false_elim in Hblank.
             destruct Hblank as [_ Htrim]. apply String.eqb_neq in Htrim.
             split.
             ++ intros H. constructor; [| assumption]. intros _. now exists s.
             ++ intros H. now inversion H.
        * split; [discriminate |].
          intros H. inversion H as [| ? ? Hq _]; subst.
          rewrite Hdata in Hq.
          destruct (Hq Hreq) as (s' & Hs' & _). discriminate.
      + rewrite IH. split.
        * intros H. constructor; [intros Ht; congruence | assumption].
        * intros H. now inversion H. }
  rewrite <- Hloop.
  destruct (clientRequiredCheck (f_questions form) data); split.
  - intros [body Hbody]. discriminate.
  - discriminate.
  - reflexivity.
  - intros _. now eexists.
Qed.

Section ClientServer.

Variable isEmail : string -> bool.
Variable normalizeEmail : string -> string.

(** X7: a body built by the client for the form the server holds is never
    answered with [AnswerCountMismatch] or [RequiredQuestionUnanswered]:
    it carries one answer per question. *)
Theorem posted_never_mismatch (db : Db) (form : Form) (data : FormValues)
    (body : SubmitResponseData) (ip : string) (userAgent : option string)
    (env : Env) (oid : string) :
  onSubmit form data = Some body ->
  castObjectId (f_id form) = Returned oid ->
  Form_findById db oid = Some form ->
  fst (submit isEmail normalizeEmail db (posted body ip userAgent) env)
  <> AnswerCountMismatch
  /\ forall question,
       fst (submit isEmail normalizeEmail db (posted body ip userAgent) env)
       <> RequiredQuestionUnanswered question.
Proof.
  unfold onSubmit. intros Hbody Hcast Hfind.
  destruct (clientRequiredCheck (f_questions form) data); [discriminate |].
  injection Hbody as <-. unfold posted, submit. simpl.
  destruct (validationResult isEmail _); [| split; [| intros ?]; discriminate].
  unfold submitBody. simpl. rewrite Hcast. simpl. rewrite Hfind.
  destruct (negb (f_isActive form)); [split; [| intros ?]; discriminate |].
  rewrite prepareAnswers_length, Nat.eqb_refl. simpl.
  assert (Hreq : requiredCheck (f_questions form) (prepareAnswers form data) = None).
  { apply requiredCheck_None. apply Forall_forall. intros q Hq. right.
    now apply prepareAnswers_answers. }
  rewrite Hreq.
  destruct (optionCheck form (prepareAnswers form data));
    [split; [| intros ?]; discriminate |].
  match goal with
  | |- context [if ?c then _ else _] => destruct c
  end; simpl; [split; [| intros ?]; discriminate |].
  destruct (normalize form (prepareAnswers form data)) as [raws |]; simpl;
    [| split; [| intros ?]; discriminate].
  destruct (castAnswers raws); simpl; split; try intros ?; discriminate.
Qed.

(** X8: a question left blank passes the client when it is optional, but the
    body then carries the empty string for it and the server turns the
    whole request away with the validation errors, whatever it holds. *)
Theorem skipped_question_rejected (db : Db) (form : Form) (data : FormValues)
    (body : SubmitResponseData) (ip : string) (userAgent : option string)
    (env : Env) (question : Question) :
  onSubmit form data = Some body ->
  In question (f_questions form) ->
  Js.truthyOpt (data (fieldName question)) = false ->
  submit isEmail normalizeEmail db (posted body ip userAgent) env
  = (ValidationFailed (validationResult isEmail (posted body ip userAgent)), db).
Proof.
  unfold onSubmit. intros Hbody Hin Hblank.
  destruct (clientRequiredCheck (f_questions form) data); [discriminate |].
  injection Hbody as <-.
  apply (empty_answer_rejected isEmail normalizeEmail db _ env
           (mkRawAnswer (q_id question) "")).
  - unfold posted, prepareAnswers. simpl. apply in_map_iff. exists question.
    split; [| assumption]. f_equal.
    unfold Js.orElse. destruct (data (fieldName question)) as [s |]; simpl in *.
    + now rewrite Hblank.
    + reflexivity.
  - reflexivity.
Qed.

End ClientServer.

Lemma posted_never_mismatch_witness :
  onSubmit onceForm typedBoth
  = Some (mkSubmitResponseData formA bothAnswered None None)
  /\ fst (submit isEmail normalizeEmail db0
            (posted (mkSubmitResponseData formA bothAnswered None None)
               "203.0.113.7" None) env1)
     <> AnswerCountMismatch
  /\ forall question,
       fst (submit isEmail normalizeEmail db0
              (posted (mkSubmitResponseData formA bothAnswered None None)
                 "203.0.113.7" None) env1)
       <> RequiredQuestionUnanswered question.
Proof.
  split; [reflexivity |].
  apply (posted_never_mismatch isEmail normalizeEmail db0 onceForm typedBoth
           (mkSubmitResponseData formA bothAnswered None None)
           "203.0.113.7" None env1 formA); reflexivity.
Defined.

Lemma skipped_question_rejected_witness :
  onSubmit onceForm typed
  = Some (mkSubmitResponseData formA
            [mkRawAnswer q1 "Fine"; mkRawAnswer q2 ""] None None)
  /\ q_required extra = false
  /\ submit isEmail normalizeEmail db0
       (posted (mkSubmitResponseData formA
                  [mkRawAnswer q1 "Fine"; mkRawAnswer q2 ""] None None)
          "203.0.113.7" None) env1
     = (ValidationFailed
          (validationResult isEmail
             (posted (mkSubmitResponseData formA
                        [mkRawAnswer q1 "Fine"; mkRawAnswer q2 ""] None None)
                "203.0.113.7" None)), db0).
Proof.
  split; [reflexivity |]. split; [reflexivity |].
  apply (skipped_question_rejected isEmail normalizeEmail db0 onceForm typed _
           "203.0.113.7" None env1 extra).
  - reflexivity.
  - right. left. reflexivity.
  - reflexivity.
Defined.


Lemma submit_accepts_witness :
  reaches isEmail db0 (request formA bothAnswered None) onceForm
  /\ notDuplicate normalizeEmail db0 (request formA bothAnswered None) onceForm
  /\ exists db',
       submit isEmail normalizeEmail db0 (request formA bothAnswered None) env1
       = (Created (newObjectId env1), db').
Proof.
  assert (H : reaches isEmail db0 (request formA bothAnswered None) onceForm).
  { apply (reaches_scenario onceForm formA _ None); reflexivity. }
  assert (Hdup : notDuplicate normalizeEmail db0
                   (request formA bothAnswered None) onceForm).
  { right. intros oid _. reflexivity. }
  split; [exact H |]. split; [exact Hdup |].
  apply (submit_accepts isEmail normalizeEmail db0 _ env1 onceForm H);
    try reflexivity.
  - exact Hdup.
  - repeat constructor; simpl; discriminate.
  - repeat constructor; simpl; discriminate.
Defined.

Lemma anonymous_never_duplicate_witness :
  Forall (fun r => r_form r = formA -> r_submitterEmail r = None)
         (responses db1')
  /\ fst (submit isEmail normalizeEmail db1'
            (request formA bothAnswered None) env2)
     <> DuplicateSubmission.
Proof.
  assert (H : Forall (fun r => r_form r = formA -> r_submitterEmail r = None)
                     (responses db1')).
  { vm_compute. repeat constructor. }
  split; [exact H |].
  apply (anonymous_never_duplicate isEmail normalizeEmail db1' _ env2 formA);
    [reflexivity | exact H].
Defined.

(* ================================================================== *)
(** * routes/forms.js: what the routes store *)

(** What a successful [POST /api/forms] went through. *)
Lemma createForm_Created_inv (db : Db) (user : string) (body : CreateBody)
    (env : FormEnv) (form : Form) (db' : Db) :
  createForm db user body env = (FormCreated form, db') ->
  exists questions,
    createValid body = true
    /\ optionsCheck (map trimText (c_questions body)) = None
    /\ castQuestions env 0 (map trimText (c_questions body)) = Returned questions
    /\ validForm (drafted user body env questions) = true
    /\ form = preSave env (drafted user body env questions)
    /\ Forall (fun g => f_id g <> f_id form /\ f_publicUrl g <> f_publicUrl form)
         (forms db)
    /\ db' = mkDb (forms db ++ [form]) (responses db).
Proof.
  unfold createForm.
  destruct (createValid body) eqn:Hvalid; simpl; [| discriminate].
  destruct (optionsCheck (map trimText (c_questions body))) eqn:Hopt;
    [discriminate |].
  destruct (castQuestions env 0 (map trimText (c_questions body)))
    as [questions |] eqn:Hcast; simpl; [| discriminate].
  unfold Form_save. fold (drafted user body env questions).
  destruct (validForm (drafted user body env questions)) eqn:Hok; simpl;
    [| discriminate].
  destruct (existsb _ (forms db)) eqn:Hex; simpl; [discriminate |].
  intros [= <- <-]. exists questions.
  repeat split; try reflexivity; try assumption.
  apply Forall_forall. intros g Hg.
  match type of Hex with
  | existsb ?p _ = false => assert (Hg' : p g = false)
  end.
  { match goal with |- ?c = false => destruct c eqn:Hc end; [| reflexivity].
    assert (Ht : existsb
                   (fun g0 => (f_id g0 =? newFormId env)
                              || match f_publicUrl g0 with
                                 | Some u => u =? generatePublicUrl env
                                 | None => false
                                 end)
                   (forms db) = true).
    { apply existsb_exists. now exists g. }
    congruence. }
  simpl in Hg'. apply orb_false_elim in Hg'. destruct Hg' as [Hid Hurl].
  apply String.eqb_neq in Hid. split; [exact Hid |].
  simpl. destruct (f_publicUrl g) as [u |]; [| discriminate].
  intros [= ->]. now rewrite String.eqb_refl in Hurl.
Qed.

(** [PUT /api/forms/:id] either leaves the collection alone or writes the
    edited form back in place of the stored one. *)
Lemma updateForm_outcome (db : Db) (id user : string) (body : UpdateBody)
    (env : FormEnv) :
  snd (updateForm db id user body env) = db
  \/ exists oid form questions,
       castObjectId id = Returned oid
       /\ Form_findOne db oid user = Some form
       /\ updateValid body = true
       /\ match u_questions body with
          | Some inputs =>
              optionsCheck inputs = None
              /\ castQuestions env 0 inputs = Returned questions
          | None => questions = f_questions form
          end
       /\ validForm (edited form body questions) = true
       /\ updateForm db id user body env
          = (FormUpdated (preSave env (edited form body questions)),
             mkDb (replaceForm (forms db) (preSave env (edited form body questions)))
               (responses db)).
Proof.
  unfold updateForm.
  destruct (updateValid body) eqn:Hvalid; simpl; [| now left].
  destruct (castObjectId id) as [oid |] eqn:Hcast; simpl; [| now left].
  destruct (Form_findOne db oid user) as [form |] eqn:Hone; simpl; [| now left].
  destruct (u_questions body) as [inputs |] eqn:Hq.
  - destruct (optionsCheck inputs) eqn:Hopt; simpl; [now left |].
    destruct (castQuestions env 0 inputs) as [questions |] eqn:Hcq; simpl;
      [| now left].
    unfold Form_save.
    assert (Hdraft : mkForm (f_id form)
                       (orDefault (option_map Js.trim (u_title body)) (f_title form))
                       (match u_description body with
                        | Some d => Some (Js.trim d)
                        | None => f_description form
                        end)
                       (f_creator form) questions
                       (orDefault (u_isActive body) (f_isActive form))
                       (f_publicUrl form)
                       (match u_settings body with
                        | Some input => mergeSettings (f_settings form) input
                        | None => f_settings form
                        end)
                     = edited form body questions) by reflexivity.
    rewrite Hdraft.
    destruct (validForm (edited form body questions)) eqn:Hok; simpl;
      [| now left].
    right. exists oid, form, questions. now repeat split.
  - unfold Form_save.
    assert (Hdraft : mkForm (f_id form)
                       (orDefault (option_map Js.trim (u_title body)) (f_title form))
                       (match u_description body with
                        | Some d => Some (Js.trim d)
                        | None => f_description form
                        end)
                       (f_creator form) (f_questions form)
                       (orDefault (u_isActive body) (f_isActive form))
                       (f_publicUrl form)
                       (match u_settings body with
                        | Some input => mergeSettings (f_settings form) input
                        | None => f_settings form
                        end)
                     = edited form body (f_questions form)) by reflexivity.
    rewrite Hdraft.
    destruct (validForm (edited form body (f_questions form))) eqn:Hok; simpl;
      [| now left].
    right. exists oid, form, (f_questions form). now repeat split.
Qed.

Lemma find_removeForm_other (l : list Form) (oid id : string) :
  id <> oid ->
  find (fun f => f_id f =? id) (removeForm l oid)
  = find (fun f => f_id f =? id) l.
Proof.
  intros Hneq. induction l as [| g rest IH]; simpl.
  - reflexivity.
  - destruct (f_id g =? oid) eqn:Hg; simpl.
    + apply String.eqb_eq in Hg.
      assert (Hgi : (f_id g =? id) = false).
      { apply String.eqb_neq. congruence. }
      now rewrite Hgi.
    + destruct (f_id g =? id); [reflexivity | exact IH].
Qed.

Lemma find_removeForm_same (l : list Form) (oid : string) :
  NoDup (map f_id l) ->
  find (fun f => f_id f =? oid) (removeForm l oid) = None.
Proof.
  induction l as [| g rest IH]; simpl; intros Hnd.
  - reflexivity.
  - inversion Hnd as [| ? ? Hnotin Hrest]; subst.
    destruct (f_id g =? oid) eqn:Hg; simpl.
    + apply String.eqb_eq in Hg. subst oid.
      destruct (find (fun f => f_id f =? f_id g) rest) as [h |] eqn:Hfind;
        [| reflexivity].
      apply find_some in Hfind. destruct Hfind as [Hin Hh].
      apply String.eqb_eq in Hh. exfalso. apply Hnotin. rewrite <- Hh.
      now apply in_map.
    + rewrite Hg. now apply IH.
Qed.

(** A stored form found under a creator is the form [findById] finds. *)
Lemma findOne_findById (db : Db) (oid user : string) (form : Form) :
  NoDup (map f_id (forms db)) ->
  Form_findOne db oid user = Some form ->
  Form_findById db oid = Some form /\ f_creator form = user /\ f_id form = oid.
Proof.
  intros Hnd Hone. unfold Form_findOne in Hone. apply find_some in Hone.
  destruct Hone as [Hin Hmatch]. apply andb_prop in Hmatch.
  destruct Hmatch as [Hid Hcreator].
  apply String.eqb_eq in Hid. apply String.eqb_eq in Hcreator.
  repeat split; try assumption.
  unfold Form_findById.
  destruct (find (fun f => f_id f =? oid) (forms db)) as [f |] eqn:Hfind.
  - f_equal. symmetry. now apply (find_unique (forms db) f form oid).
  - pose proof (find_none _ _ Hfind form Hin) as H. simpl in H.
    rewrite Hid, String.eqb_refl in H. discriminate.
Qed.

Lemma findById_None_findOne (db : Db) (oid user : string) :
  Form_findById db oid = None -> Form_findOne db oid user = None.
Proof.
  unfold Form_findById, Form_findOne. intros Hnone.
  destruct (find (fun f => (f_id f =? oid) && (f_creator f =? user)) (forms db))
    as [f |] eqn:Hfind; [| reflexivity].
  apply find_some in Hfind. destruct Hfind as [Hin Hmatch].
  apply andb_prop in Hmatch. destruct Hmatch as [Hid _].
  pose proof (find_none _ _ Hnone f Hin) as H. simpl in H. congruence.
Qed.

Lemma find_app_Some {A : Type} (p : A -> bool) (l l' : list A) (x : A) :
  find p l = Some x -> find p (l ++ l') = Some x.
Proof.
  induction l as [| y rest IH]; simpl; [discriminate |].
  destruct (p y); [trivial | exact IH].
Qed.

(** X9: deleting a form does not delete its responses: they stay in the
    collection, while the form itself is gone, its summary answers "Form not
    found" and every valid submission to it [FormUnavailable]. *)
Theorem delete_leaves_responses (db : Db) (id user : string) (db' : Db) :
  NoDup (map f_id (forms db)) ->
  deleteForm db id user = (FormDeleted, db') ->
  exists oid,
    castObjectId id = Returned oid
    /\ Form_findById db' oid = None
    /\ responses db' = responses db
    /\ (forall reader, getSummary db' id reader = SummaryFormNotFound)
    /\ (forall isEmail normalizeEmail req env,
           formId req = id ->
           validationResult isEmail req = [] ->
           submit isEmail normalizeEmail db' req env = (FormUnavailable, db')).
Proof.
  intros Hnd. unfold deleteForm.
  destruct (castObjectId id) as [oid |] eqn:Hcast; simpl; [| discriminate].
  destruct (Form_findOne db oid user) as [form |]; simpl; [| discriminate].
  intros [= <-]. exists oid.
  assert (Hgone : Form_findById (mkDb (removeForm (forms db) oid) (responses db)) oid
                  = None).
  { unfold Form_findById. simpl. now apply find_removeForm_same. }
  repeat split; try assumption.
  - intros reader. unfold getSummary. rewrite Hcast. simpl.
    now rewrite (findById_None_findOne _ oid reader Hgone).
  - intros isEmail normalizeEmail req env Hid Hvalid. unfold submit.
    rewrite Hvalid. unfold submitBody. rewrite Hid, Hcast. simpl.
    now rewrite Hgone.
Qed.

(** X10: the three routes that write forms never change a form of another
    creator: whatever a user posts, puts or deletes, the forms the user did
    not create are found as they were. *)
Theorem other_creators_untouched (db : Db) (id0 user : string) (g : Form) :
  NoDup (map f_id (forms db)) ->
  Form_findById db id0 = Some g ->
  f_creator g <> user ->
  (forall body env,
      Form_findById (snd (createForm db user body env)) id0 = Some g)
  /\ (forall id body env,
         Form_findById (snd (updateForm db id user body env)) id0 = Some g)
  /\ (forall id, Form_findById (snd (deleteForm db id user)) id0 = Some g).
Proof.
  intros Hnd Hfind Hother.
  assert (Hmine : forall oid form,
             Form_findOne db oid user = Some form -> f_id g <> f_id form).
  { intros oid form Hone Heq.
    destruct (findOne_findById db oid user form Hnd Hone) as (Hby & Hcreator & Hid).
    assert (form = g).
    { apply (find_unique (forms db) g form id0 Hnd Hfind).
      - unfold Form_findById in Hby. now apply find_some in Hby.
      - unfold Form_findById in Hfind. apply find_some in Hfind.
        destruct Hfind as [_ Hg]. apply String.eqb_eq in Hg. congruence. }
    congruence. }
  assert (Hg : f_id g = id0).
  { unfold Form_findById in Hfind. apply find_some in Hfind.
    destruct Hfind as [_ Hg]. now apply String.eqb_eq in Hg. }
  split; [| split].
  - intros body env.
    destruct (createForm_outcome db user body env)
      as [-> | (form & db' & Hcreate)]; [assumption |].
    rewrite Hcreate. simpl.
    apply createForm_Created_inv in Hcreate.
    destruct Hcreate as (questions & _ & _ & _ & _ & _ & _ & ->).
    unfold Form_findById. simpl. now apply find_app_Some.
  - intros id body env.
    destruct (updateForm_outcome db id user body env)
      as [-> | (oid & form & questions & _ & Hone & _ & _ & _ & ->)];
      [assumption |].
    unfold Form_findById. simpl. rewrite find_replaceForm.
    unfold Form_findById in Hfind. rewrite Hfind, preSave_id. simpl.
    assert (Hne : (f_id g =? f_id form) = false).
    { apply String.eqb_neq. now apply (Hmine oid). }
    now rewrite Hne.
  - intros id. unfold deleteForm.
    destruct (castObjectId id) as [oid |]; simpl; [| assumption].
    destruct (Form_findOne db oid user) as [form |] eqn:Hone; simpl;
      [| assumption].
    unfold Form_findById. simpl. rewrite find_removeForm_other; [assumption |].
    destruct (findOne_findById db oid user form Hnd Hone) as (_ & _ & Hid).
    specialize (Hmine oid form Hone). congruence.
Qed.

(** X11: a form just created is active and is the form its public URL leads
    to. *)
Theorem created_form_public (db : Db) (user : string) (body : CreateBody)
    (env : FormEnv) (form : Form) (db' : Db) :
  createForm db user body env = (FormCreated form, db') ->
  f_isActive form = true
  /\ f_creator form = user
  /\ getPublicForm db' (generatePublicUrl env) = Some form.
Proof.
  intros Hcreate. apply createForm_Created_inv in Hcreate.
  destruct Hcreate as (questions & _ & _ & _ & _ & -> & Hfresh & ->).
  unfold preSave, drafted in *. simpl in *. repeat split.
  unfold getPublicForm. simpl.
  induction (forms db) as [| g rest IH]; simpl.
  - now rewrite String.eqb_refl.
  - inversion Hfresh as [| ? ? [_ Hurl] Hrest]; subst.
    destruct (f_publicUrl g) as [u |] eqn:Hu; simpl.
    + assert (Hne : (u =? generatePublicUrl env) = false).
      { apply String.eqb_neq. congruence. }
      rewrite Hne. simpl. now apply IH.
    + now apply IH.
Qed.

Section PublicSubmit.

Variable isEmail : string -> bool.
Variable normalizeEmail : string -> string.

(** X12: a form that its public URL serves is never answered
    [FormUnavailable] by the submission route. *)
Theorem public_form_available (db : Db) (publicUrl : string) (form : Form)
    (req : SubmitRequest) (env : Env) :
  NoDup (map f_id (forms db)) ->
  getPublicForm db publicUrl = Some form ->
  isObjectId (f_id form) ->
  formId req = f_id form ->
  fst (submit isEmail normalizeEmail db req env) <> FormUnavailable.
Proof.
  intros Hnd Hpublic Hoid Hid.
  unfold getPublicForm in Hpublic. apply find_some in Hpublic.
  destruct Hpublic as [Hin Hmatch]. apply andb_prop in Hmatch.
  destruct Hmatch as [_ Hactive].
  assert (Hfind : Form_findById db (f_id form) = Some form).
  { unfold Form_findById.
    destruct (find (fun f => f_id f =? f_id form) (forms db)) as [f |] eqn:Hf.
    - f_equal. symmetry. now apply (find_unique (forms db) f form (f_id form)).
    - pose proof (find_none _ _ Hf form Hin) as H. simpl in H.
      now rewrite String.eqb_refl in H. }
  unfold submit.
  destruct (validationResult isEmail req); [| discriminate].
  unfold submitBody. rewrite Hid, Hoid. simpl. rewrite Hfind, Hactive. simpl.
  destruct (negb (List.length (answers req) =? List.length (f_questions form))%nat);
    [discriminate |].
  destruct (requiredCheck (f_questions form) (answers req)); [discriminate |].
  destruct (optionCheck form (answers req)); [discriminate |].
  match goal with
  | |- context [if ?c then _ else _] => destruct c
  end; simpl; [discriminate |].
  destruct (normalize form (answers req)) as [raws |]; simpl; [| discriminate].
  destruct (castAnswers raws); simpl; discriminate.
Qed.

End PublicSubmit.

(* ================================================================== *)
(** * routes/forms.js: the shape of the stored forms *)

Lemma castQuestions_shape (env : FormEnv) (inputs : list QuestionInput)
    (index : nat) (questions : list Question) :
  castQuestions env index inputs = Returned questions ->
  map q_order questions = seq (index + 1) (List.length inputs)
  /\ Forall2 (fun input q =>
                q_type q = qi_type input
                /\ List.length (q_options q)
                   = List.length (orDefault (qi_options input) []))
             inputs questions.
Proof.
  revert index questions. induction inputs as [| input rest IH];
    simpl; intros index questions.
  - intros [= <-]. split; [reflexivity | constructor].
  - destruct (match qi_id input with
              | Some s => castObjectId s
              | None => Returned (newQuestionId env index)
              end) as [id |]; simpl; [| discriminate].
    destruct (castQuestions env (S index) rest) as [tail |] eqn:Htail; simpl;
      [| discriminate].
    intros [= <-]. destruct (IH (S index) tail Htail) as [Horder Hshape].
    simpl. split.
    + f_equal. rewrite Horder. reflexivity.
    + constructor; [| exact Hshape]. simpl. split; [reflexivity |].
      apply length_map.
Qed.

Lemma optionsCheck_None (inputs : list QuestionInput) :
  optionsCheck inputs = None ->
  Forall (fun input =>
            qi_type input = MultipleChoice ->
            2 <= List.length (orDefault (qi_options input) []))
         inputs.
Proof.
  induction inputs as [| input rest IH]; simpl; intros Hcheck.
  - constructor.
  - destruct (QuestionType_eqb (qi_type input) MultipleChoice) eqn:Htype; simpl in *.
    + destruct (qi_options input) as [options |] eqn:Ho; [| discriminate].
      destruct (List.length options <? 2)%nat eqn:Hlen; [discriminate |].
      constructor; [| now apply IH].
      intros _. rewrite Ho. simpl. apply Nat.ltb_ge in Hlen. exact Hlen.
    + constructor; [| now apply IH].
      intros Hmc. apply QuestionType_eqb_eq in Hmc. congruence.
Qed.

Lemma isLength_bounds (lo hi : nat) (s : string) :
  Validator.isLength lo (Some hi) s = true -> lo <= String.length s <= hi.
Proof.
  unfold Validator.isLength. intros H. apply andb_prop in H.
  destruct H as [Hlo Hhi]. apply Nat.leb_le in Hlo. apply Nat.leb_le in Hhi. lia.
Qed.

Lemma validForm_texts (form : Form) :
  validForm form = true -> Forall (fun q => q_text q <> "") (f_questions form).
Proof.
  unfold validForm. intros H. apply andb_prop in H. destruct H as [_ H].
  rewrite forallb_forall in H. apply Forall_forall. intros q Hq.
  specialize (H q Hq). apply negb_true_iff in H. now apply String.eqb_neq.
Qed.

(** The questions a route casts from a body that passed its checks. *)
Lemma cast_questions_ok (env : FormEnv) (inputs : list QuestionInput)
    (questions : list Question) :
  questionCountOk inputs = true ->
  optionsCheck inputs = None ->
  castQuestions env 0 inputs = Returned questions ->
  1 <= List.length questions <= 10
  /\ map q_order questions = seq 1 (List.length questions)
  /\ Forall (fun q => q_type q = MultipleChoice -> 2 <= List.length (q_options q))
       questions.
Proof.
  intros Hcount Hopt Hcast.
  destruct (castQuestions_shape env inputs 0 questions Hcast) as [Horder Hshape].
  pose proof (Forall2_length Hshape) as Hlen.
  unfold questionCountOk in Hcount. apply andb_prop in Hcount.
  destruct Hcount as [Hlo Hhi]. apply Nat.leb_le in Hlo. apply Nat.leb_le in Hhi.
  split; [lia |]. split; [now rewrite <- Hlen |].
  apply optionsCheck_None in Hopt. clear - Hopt Hshape.
  induction Hshape as [| input q inputs questions [Htype Hoptions] _ IH].
  - constructor.
  - inversion Hopt as [| ? ? Hinput Hrest]; subst.
    constructor; [| now apply IH].
    rewrite Htype, Hoptions. exact Hinput.
Qed.

Lemma formOk_preSave (env : FormEnv) (form : Form) :
  formOk form -> formOk (preSave env form).
Proof.
  unfold preSave. now destruct (negb (Js.truthyOpt (f_publicUrl form))).
Qed.

(** X13: a form that [POST /api/forms] creates has a title of 1 to 200
    characters, 1 to 10 questions numbered 1, 2, ... in order, a text for
    every question and at least two options for every multiple-choice
    question. *)
Theorem created_form_ok (db : Db) (user : string) (body : CreateBody)
    (env : FormEnv) (form : Form) (db' : Db) :
  createForm db user body env = (FormCreated form, db') ->
  formOk form.
Proof.
  intros Hcreate. apply createForm_Created_inv in Hcreate.
  destruct Hcreate as (questions & Hvalid & Hopt & Hcast & Hdoc & -> & _ & _).
  apply formOk_preSave.
  unfold createValid in Hvalid.
  apply andb_prop in Hvalid. destruct Hvalid as [Hvalid _].
  apply andb_prop in Hvalid. destruct Hvalid as [Hvalid Hcount].
  apply andb_prop in Hvalid. destruct Hvalid as [Htitle _].
  assert (Hcount' : questionCountOk (map trimText (c_questions body)) = true).
  { unfold questionCountOk in *. now rewrite length_map. }
  destruct (cast_questions_ok env _ questions Hcount' Hopt Hcast)
    as (Hn & Horder & Hchoices).
  unfold formOk, drafted. simpl. repeat split; try assumption; try lia.
  - now apply isLength_bounds in Htitle.
  - now apply isLength_bounds in Htitle.
  - now apply validForm_texts in Hdoc.
Qed.

Lemma NoDup_scenario_ids : NoDup (map f_id (forms db0)).
Proof. simpl. repeat constructor; simpl; intuition discriminate. Qed.

Lemma delete_leaves_responses_witness :
  deleteForm db1 formA owner = (FormDeleted, dbDeleted)
  /\ List.length (Response_find dbDeleted formA) = 1
  /\ exists oid,
       castObjectId formA = Returned oid
       /\ Form_findById dbDeleted oid = None
       /\ responses dbDeleted = responses db1
       /\ (forall reader, getSummary dbDeleted formA reader = SummaryFormNotFound)
       /\ (forall isEmail normalizeEmail req env,
              formId req = formA ->
              validationResult isEmail req = [] ->
              submit isEmail normalizeEmail dbDeleted req env
              = (FormUnavailable, dbDeleted)).
Proof.
  assert (H : deleteForm db1 formA owner = (FormDeleted, dbDeleted)).
  { vm_compute. reflexivity. }
  split; [exact H |]. split; [reflexivity |].
  exact (delete_leaves_responses db1 formA owner dbDeleted NoDup_scenario_ids H).
Defined.

Lemma other_creators_untouched_witness :
  Form_findById db0 formA = Some onceForm
  /\ f_creator onceForm <> visitor
  /\ (forall body env,
         Form_findById (snd (createForm db0 visitor body env)) formA
         = Some onceForm)
  /\ (forall id body env,
         Form_findById (snd (updateForm db0 id visitor body env)) formA
         = Some onceForm)
  /\ (forall id, Form_findById (snd (deleteForm db0 id visitor)) formA
                 = Some onceForm).
Proof.
  assert (Hne : f_creator onceForm <> visitor) by discriminate.
  split; [reflexivity |]. split; [exact Hne |].
  exact (other_creators_untouched db0 formA visitor onceForm NoDup_scenario_ids
           eq_refl Hne).
Defined.

Lemma created_form_public_witness :
  createForm db0 owner surveyBody formEnv1 = (FormCreated survey, dbSurvey)
  /\ f_isActive survey = true
  /\ f_creator survey = owner
  /\ getPublicForm dbSurvey (generatePublicUrl formEnv1) = Some survey.
Proof.
  assert (H : createForm db0 owner surveyBody formEnv1
              = (FormCreated survey, dbSurvey)).
  { vm_compute. reflexivity. }
  split; [exact H |].
  exact (created_form_public db0 owner surveyBody formEnv1 survey dbSurvey H).
Defined.

Lemma public_form_available_witness :
  getPublicForm db0 "form-1-abc" = Some onceForm
  /\ fst (submit isEmail normalizeEmail db0 (request formA bothAnswered None) env1)
     <> FormUnavailable.
Proof.
  split; [reflexivity |].
  apply (public_form_available isEmail normalizeEmail db0 "form-1-abc" onceForm);
    try reflexivity.
  exact NoDup_scenario_ids.
Defined.

Lemma created_form_ok_witness :
  createForm db0 owner pollBody formEnv3 = (FormCreated poll, dbPoll)
  /\ map q_type (f_questions poll) = [MultipleChoice; TextQuestion]
  /\ formOk poll.
Proof.
  assert (H : createForm db0 owner pollBody formEnv3 = (FormCreated poll, dbPoll)).
  { vm_compute. reflexivity. }
  split; [exact H |]. split; [reflexivity |].
  exact (created_form_ok db0 owner pollBody formEnv3 poll dbPoll H).
Defined.

(* ================================================================== *)
(** * Submissions and summaries *)

Lemma isObjectId_lower (s : string) : isObjectId s -> Js.toLowerCase s = s.
Proof.
  unfold isObjectId, castObjectId.
  destruct (Validator.allHex s && (String.length s =? 24)%nat); [| discriminate].
  now intros [= ->].
Qed.

Lemma Response_find_app (l : list Response) (r : Response) (forms0 : list Form)
    (oid : string) :
  Response_find (mkDb forms0 (l ++ [r])) oid
  = Response_find (mkDb forms0 l) oid ++ (if r_form r =? oid then [r] else []).
Proof. unfold Response_find. simpl. now rewrite filter_app. Qed.

Lemma counted_app (question : Question) (rs rs' : list Response) :
  counted question (rs ++ rs') = counted question rs ++ counted question rs'.
Proof. unfold counted. apply flat_map_app. Qed.

Section SubmitSummary.

Variable isEmail : string -> bool.
Variable normalizeEmail : string -> string.

(** X15: an accepted response shows in the next summary of its form:
    [totalResponses] grows by one, and the [totalAnswers] of a question grows
    by one exactly when the request held an answer naming it. *)
Theorem accepted_is_counted (db : Db) (req : SubmitRequest) (env : Env)
    (id oid : string) (form : Form) (db' : Db) :
  submit isEmail normalizeEmail db req env = (Created id, db') ->
  castObjectId (formId req) = Returned oid ->
  Form_findById db oid = Some form ->
  Forall (fun q => isObjectId (q_id q)) (f_questions form) ->
  totalResponses (summarize form (Response_find db' oid))
  = totalResponses (summarize form (Response_find db oid)) + 1
  /\ Forall2
       (fun s s' =>
          totalAnswers s'
          = totalAnswers s
            + (if existsb (fun a => a_questionId a =? s_questionId s) (answers req)
               then 1 else 0))
       (questions (summarize form (Response_find db oid)))
       (questions (summarize form (Response_find db' oid))).
Proof.
  intros Hsubmit Hcast Hfind Hids. apply submit_Created_iff in Hsubmit.
  destruct Hsubmit as (oid1 & form1 & raws & stored & _ & Hcast1 & Hfind1 & _ & _
                       & _ & _ & _ & Hnorm & Hstored & _ & ->).
  assert (oid1 = oid) by congruence. subst oid1.
  assert (form1 = form) by congruence. subst form1.
  assert (Hdb : mkDb (forms db) (responses db) = db) by now destruct db.
  rewrite Response_find_app, Hdb. simpl. rewrite String.eqb_refl.
  set (r := accepted normalizeEmail req env oid stored).
  set (rs := Response_find db oid).
  unfold summarize, buildSummary. simpl. split.
  - rewrite length_app. reflexivity.
  - assert (Hsame : forall question,
               answersQuestion question r
               = existsb (fun a => a_questionId a =? q_id question) (answers req)).
    { intros question. unfold answersQuestion, r. simpl.
      apply normalize_Returned in Hnorm. apply castAnswers_Returned in Hstored.
      clear - Hnorm Hstored Hids. revert stored Hstored.
      induction Hnorm as [| a raw rest raws (q & Hq & ->) _ IH];
        intros stored Hstored; inversion Hstored as [| ? s ? tail Hs Htail]; subst.
      - reflexivity.
      - simpl. rewrite (IH tail Htail). f_equal.
        simpl in Hs. destruct Hs as (Hid & _).
        apply castObjectId_Returned in Hid. rewrite Hid.
        unfold findQuestion in Hq. apply find_some in Hq.
        destruct Hq as [Hin Heq]. apply String.eqb_eq in Heq.
        rewrite Forall_forall in Hids. specialize (Hids q Hin).
        rewrite <- Heq. now rewrite (isObjectId_lower _ Hids). }
    induction (f_questions form) as [| question rest IH]; simpl.
    + constructor.
    + constructor.
      * rewrite !summarizeQuestion_eq. simpl.
        rewrite counted_app, length_app. f_equal.
        rewrite (counted_length question [r]). simpl.
        rewrite Hsame.
        now destruct (existsb (fun a => a_questionId a =? q_id question)
                        (answers req)).
      * apply IH. now inversion Hids.
Qed.

(** X16: whatever a request to one form does, the summaries of the other forms
    stay as they were. *)
Theorem submit_other_summary (db : Db) (req : SubmitRequest) (env : Env)
    (id' oid' reader : string) :
  castObjectId id' = Returned oid' ->
  castObjectId (formId req) <> Returned oid' ->
  getSummary (snd (submit isEmail normalizeEmail db req env)) id' reader
  = getSummary db id' reader.
Proof.
  intros Hcast' Hother.
  destruct (submit_rejected isEmail normalizeEmail db req env)
    as [[id Hid] | ->]; [| reflexivity].
  destruct (submit isEmail normalizeEmail db req env) as [reply db'] eqn:Hsubmit.
  simpl in Hid. subst reply. simpl.
  apply submit_Created_iff in Hsubmit.
  destruct Hsubmit as (oid & form & raws & stored & _ & Hcast & _ & _ & _ & _ & _
                       & _ & _ & _ & _ & ->).
  assert (Hne : (oid =? oid') = false).
  { apply String.eqb_neq. intros ->. contradiction. }
  assert (Hdb : mkDb (forms db) (responses db) = db) by now destruct db.
  unfold getSummary. rewrite Hcast'. simpl.
  unfold Form_findOne, Response_countDocuments. simpl.
  rewrite Response_find_app, Hdb. simpl. rewrite Hne, app_nil_r. reflexivity.
Qed.

End SubmitSummary.

(* ================================================================== *)
(** * GET /api/responses/:id *)

(** X17: the route hands a response only to the creator of the form it belongs
    to, together with the title of that form. *)
Theorem getResponse_owner_only (db : Db) (id user : string) (r : Response)
    (title creator : string) :
  getResponse db id user = ResponseOk r title creator ->
  creator = user
  /\ exists oid form,
       castObjectId id = Returned oid
       /\ Response_findById db oid = Some r
       /\ Form_findById db (r_form r) = Some form
       /\ f_creator form = user
       /\ f_title form = title.
Proof.
  unfold getResponse.
  destruct (castObjectId id) as [oid |] eqn:Hcast; simpl; [| discriminate].
  destruct (Response_findById db oid) as [response |] eqn:Hr; simpl;
    [| discriminate].
  destruct (Form_findById db (r_form response)) as [form |] eqn:Hf; simpl;
    [| discriminate].
  destruct (f_creator form =? user) eqn:Hc; simpl; [| discriminate].
  apply String.eqb_eq in Hc. intros [= <- <- <-].
  split; [exact Hc |]. exists oid, form. now repeat split.
Qed.

(** X18: after a form is deleted, asking for one of its responses by id ends in
    the 500, whoever asks: the response is still stored and its form is
    gone. *)
Theorem orphan_response_server_error (db : Db) (id user : string) (db' : Db)
    (oid rid roid reader : string) (r : Response) :
  NoDup (map f_id (forms db)) ->
  deleteForm db id user = (FormDeleted, db') ->
  castObjectId id = Returned oid ->
  castObjectId rid = Returned roid ->
  Response_findById db roid = Some r ->
  r_form r = oid ->
  Response_findById db' roid = Some r
  /\ getResponse db' rid reader = ResponseServerError.
Proof.
  intros Hnd Hdelete Hcast Hrcast Hr Hform. unfold deleteForm in Hdelete.
  rewrite Hcast in Hdelete. simpl in Hdelete.
  destruct (Form_findOne db oid user); simpl in Hdelete; [| discriminate].
  injection Hdelete as <-. split; [exact Hr |].
  unfold getResponse. rewrite Hrcast. simpl.
  change (Response_findById (mkDb (removeForm (forms db) oid) (responses db)) roid)
    with (Response_findById db roid).
  rewrite Hr. unfold Form_findById. simpl. rewrite Hform.
  now rewrite find_removeForm_same.
Qed.

(* ================================================================== *)
(** * GET /api/responses/form/:formId/export: rows and header *)

Lemma getOwn_assign_all {A : Type} (key : A -> string) (value : A -> JsObject.Value)
    (l : list A) (o : JsObject.t) (k : string) :
  JsObject.getOwn
    (fold_left (fun row a => JsObject.setOwn row (key a) (value a)) l o) k
  = match find (fun a => key a =? k) (rev l) with
    | Some a => Some (value a)
    | None => JsObject.getOwn o k
    end.
Proof.
  revert o. induction l as [| a rest IH]; intros o; simpl.
  - reflexivity.
  - rewrite IH.
    destruct (find (fun a0 => key a0 =? k) (rev rest)) as [b |] eqn:Hrest.
    + now rewrite (find_app_Some _ _ [a] b Hrest).
    + assert (Hfind : find (fun a0 => key a0 =? k) (rev rest ++ [a])
                      = if key a =? k then Some a else None).
      { clear - Hrest. induction (rev rest) as [| c tail IH]; simpl in *.
        - reflexivity.
        - destruct (key c =? k); [discriminate | now apply IH]. }
      rewrite Hfind. destruct (key a =? k) eqn:Hk.
      * apply String.eqb_eq in Hk. subst k. apply getOwn_setOwn_same.
      * apply getOwn_setOwn_other. apply String.eqb_neq in Hk. congruence.
Qed.

Lemma keys_assign_all {A : Type} (key : A -> string) (value : A -> JsObject.Value)
    (l : list A) (o : JsObject.t) :
  exists added,
    JsObject.keys
      (fold_left (fun row a => JsObject.setOwn row (key a) (value a)) l o)
    = JsObject.keys o ++ added
    /\ forall k, In k added <->
                 (In k (map key l) /\ ~ In k (JsObject.keys o)).
Proof.
  revert o. induction l as [| a rest IH]; intros o; simpl.
  - exists []. split; [now rewrite app_nil_r |]. intros k. simpl. tauto.
  - destruct (IH (JsObject.setOwn o (key a) (value a))) as (added & Hkeys & Hin).
    rewrite keys_setOwn in Hkeys, Hin.
    destruct (JsObject.getOwn o (key a)) eqn:Hget.
    + exists added. split; [exact Hkeys |]. intros k. rewrite Hin.
      assert (Hold : In (key a) (JsObject.keys o)).
      { destruct (in_dec string_dec (key a) (JsObject.keys o)) as [H | H];
          [exact H |].
        apply getOwn_None_keys in H. congruence. }
      split.
      * intros [H1 H2]. split; [now right | exact H2].
      * intros [[<- | H1] H2]; [contradiction | now split].
    + apply getOwn_None_keys in Hget.
      exists (key a :: added). split.
      * rewrite Hkeys, <- app_assoc. reflexivity.
      * intros k. simpl. rewrite Hin, in_app_iff. simpl.
        destruct (string_dec (key a) k) as [<- | Hne].
        -- split; [intros _; split; [now left | exact Hget] | intros _; now left].
        -- split.
           ++ intros [H | [H1 H2]]; [contradiction |].
              split; [now right | tauto].
           ++ intros [[H | H1] H2]; [contradiction |].
              right. split; [exact H1 |]. intros [H | [H | []]]; contradiction.
Qed.

Lemma NoDup_keys_assign_all {A : Type} (key : A -> string)
    (value : A -> JsObject.Value) (l : list A) (o : JsObject.t) :
  NoDup (JsObject.keys o) ->
  NoDup (JsObject.keys
           (fold_left (fun row a => JsObject.setOwn row (key a) (value a)) l o)).
Proof.
  revert o. induction l as [| a rest IH]; intros o Ho; simpl.
  - exact Ho.
  - apply IH. now apply NoDup_keys_setOwn.
Qed.

Lemma entries_named (o : JsObject.t) :
  Forall (fun k => JsObject.arrayIndex k = None) (JsObject.keys o) ->
  JsObject.entries o = o.
Proof.
  unfold JsObject.entries, JsObject.keys, JsObject.named. intros Hall.
  assert (Hindexed : JsObject.indexed o = []).
  { induction o as [| [k v] rest IH]; simpl; [reflexivity |].
    inversion Hall as [| ? ? Hk Hrest]; subst. simpl in Hk.
    rewrite Hk. now apply IH. }
  rewrite Hindexed. simpl.
  induction o as [| [k v] rest IH]; simpl; [reflexivity |].
  inversion Hall as [| ? ? Hk Hrest]; subst. simpl in Hk.
  rewrite Hk. simpl. f_equal. apply IH; [exact Hrest |].
  simpl in Hindexed. now rewrite Hk in Hindexed.
Qed.

Section ExportFacts.

Variable toISOString : nat -> string.

(** X19: in an exported row the cell of a question text holds the answer of the
    last answer of the response that carries that text: answers under one
    text share one column, and the later one wins it. *)
Theorem csvRow_cell (response : Response) (text : string) :
  JsObject.getOwn (csvRow toISOString response) ("Q" ++ text)
  = option_map (fun a => JsObject.Str (answer a))
      (find (fun a => questionText a =? text) (rev (r_answers response))).
Proof.
  unfold csvRow.
  rewrite (getOwn_assign_all (fun a => ("Q" ++ questionText a)%string)
             (fun a => JsObject.Str (answer a))).
  simpl. now destruct (find _ (rev (r_answers response))).
Qed.

Lemma csvRow_keys (response : Response) :
  exists added,
    JsObject.keys (csvRow toISOString response) = fixedColumns ++ added
    /\ NoDup (fixedColumns ++ added)
    /\ forall k, In k added <->
                 exists a, In a (r_answers response)
                           /\ k = ("Q" ++ questionText a)%string.
Proof.
  unfold csvRow.
  match goal with
  | |- context [fold_left ?f ?l ?o] =>
      destruct (keys_assign_all (fun a => ("Q" ++ questionText a)%string)
                  (fun a => JsObject.Str (answer a)) l o)
        as (added & Hkeys & Hin);
      pose proof (NoDup_keys_assign_all
                    (fun a => ("Q" ++ questionText a)%string)
                    (fun a => JsObject.Str (answer a)) l o) as Hnd
  end.
  exists added. simpl in Hkeys. split; [exact Hkeys |].
  split.
  - unfold fixedColumns. simpl. rewrite <- Hkeys. apply Hnd. simpl.
    repeat constructor; simpl; intuition discriminate.
  - intros k. rewrite Hin. simpl. split.
    + intros [Hmap _]. apply in_map_iff in Hmap. destruct Hmap as [a [<- Ha]].
      now exists a.
    + intros [a [Ha ->]]. split.
      * apply in_map_iff. now exists a.
      * intuition discriminate.
Qed.

(** X20: with no response the export stops on the 404.  Otherwise there is one
    row per response, and the header is read off the first row alone: the
    five fixed columns, then one column per question text of the first
    response, none twice; a question text that only later responses carry
    gets no column. *)
Theorem exportData_header (found : list Response) :
  match exportData toISOString found with
  | None => found = []
  | Some (header, rows) =>
      rows = map (csvRow toISOString) found
      /\ exists first rest added,
           found = first :: rest
           /\ header = fixedColumns ++ added
           /\ NoDup header
           /\ forall k, In k added <->
                        exists a, In a (r_answers first)
                                  /\ k = ("Q" ++ questionText a)%string
  end.
Proof.
  unfold exportData. destruct found as [| first rest]; simpl; [reflexivity |].
  split; [reflexivity |].
  destruct (csvRow_keys first) as (added & Hkeys & Hnd & Hin).
  exists first, rest, added. split; [reflexivity |].
  assert (Hentries : JsObject.entries (csvRow toISOString first)
                     = csvRow toISOString first).
  { apply entries_named. rewrite Hkeys. apply Forall_app. split.
    - repeat constructor.
    - apply Forall_forall. intros k Hk. apply Hin in Hk.
      destruct Hk as [a [_ ->]]. reflexivity. }
  rewrite Hentries. fold (JsObject.keys (csvRow toISOString first)).
  rewrite Hkeys. split; [reflexivity |]. split; [exact Hnd | exact Hin].
Qed.

End ExportFacts.

(** Two answers under the text "Comments": the row has one cell for both,
    holding the second. *)
Example same_text_one_cell :
  JsObject.getOwn (csvRow isoStamp responseSameText) "QComments"
  = Some (JsObject.Str "second")
  /\ map fst (csvRow isoStamp responseSameText) = fixedColumns ++ ["QComments"].
Proof. split; reflexivity. Qed.

Lemma accepted_is_counted_witness :
  submit isEmail normalizeEmail db0
    (request formA bothAnswered (Some "a@x.com")) env1
  = (Created (newObjectId env1), db1)
  /\ Forall (fun q => isObjectId (q_id q)) (f_questions onceForm)
  /\ totalResponses (summarize onceForm (Response_find db1 formA))
     = totalResponses (summarize onceForm (Response_find db0 formA)) + 1
  /\ Forall2
       (fun s s' =>
          totalAnswers s'
          = totalAnswers s
            + (if existsb (fun a => a_questionId a =? s_questionId s)
                    (answers (request formA bothAnswered (Some "a@x.com")))
               then 1 else 0))
       (questions (summarize onceForm (Response_find db0 formA)))
       (questions (summarize onceForm (Response_find db1 formA))).
Proof.
  assert (H : submit isEmail normalizeEmail db0
                (request formA bothAnswered (Some "a@x.com")) env1
              = (Created (newObjectId env1), db1)).
  { vm_compute. reflexivity. }
  assert (Hids : Forall (fun q => isObjectId (q_id q)) (f_questions onceForm)).
  { repeat constructor. }
  split; [exact H |]. split; [exact Hids |].
  exact (accepted_is_counted isEmail normalizeEmail db0 _ env1 _ formA onceForm
           db1 H eq_refl eq_refl Hids).
Defined.

Lemma submit_other_summary_witness :
  castObjectId formB = Returned formB
  /\ castObjectId (formId (request formA bothAnswered None)) <> Returned formB
  /\ getSummary
       (snd (submit isEmail normalizeEmail db0
               (request formA bothAnswered None) env1))
       formB owner
     = getSummary db0 formB owner.
Proof.
  assert (Hne : castObjectId (formId (request formA bothAnswered None))
                <> Returned formB).
  { vm_compute. discriminate. }
  split; [reflexivity |]. split; [exact Hne |].
  exact (submit_other_summary isEmail normalizeEmail db0 _ env1 formB formB owner
           eq_refl Hne).
Defined.

Lemma getResponse_owner_only_witness :
  getResponse db1 (newObjectId env1) owner = ResponseOk firstStored "Visit" owner
  /\ owner = owner
  /\ exists oid form,
       castObjectId (newObjectId env1) = Returned oid
       /\ Response_findById db1 oid = Some firstStored
       /\ Form_findById db1 (r_form firstStored) = Some form
       /\ f_creator form = owner
       /\ f_title form = "Visit".
Proof.
  assert (H : getResponse db1 (newObjectId env1) owner
              = ResponseOk firstStored "Visit" owner).
  { vm_compute. reflexivity. }
  split; [exact H |].
  exact (getResponse_owner_only db1 _ owner firstStored "Visit" owner H).
Defined.

Lemma orphan_response_server_error_witness :
  deleteForm db1 formA owner = (FormDeleted, dbDeleted)
  /\ Response_findById db1 (newObjectId env1) = Some firstStored
  /\ Response_findById dbDeleted (newObjectId env1) = Some firstStored
  /\ getResponse dbDeleted (newObjectId env1) owner = ResponseServerError.
Proof.
  assert (H : deleteForm db1 formA owner = (FormDeleted, dbDeleted)).
  { vm_compute. reflexivity. }
  assert (Hr : Response_findById db1 (newObjectId env1) = Some firstStored).
  { vm_compute. reflexivity. }
  split; [exact H |]. split; [exact Hr |].
  exact (orphan_response_server_error db1 formA owner dbDeleted formA
           (newObjectId env1) (newObjectId env1) owner firstStored
           NoDup_scenario_ids H eq_refl eq_refl Hr eq_refl).
Defined.

(* ================================================================== *)
(** * CreateForm.tsx and EditForm.tsx against routes/forms.js *)

Lemma editorLoop_None (questions : list EditorQuestion) (index : nat) :
  editorLoop index questions = None ->
  optionsCheck (map asInput questions) = None
  /\ optionsCheck (map trimText (map asInput questions)) = None.
Proof.
  revert index. induction questions as [| q rest IH]; simpl; intros index.
  - now split.
  - destruct (QuestionType_eqb (e_type q) MultipleChoice
              && match e_options q with
                 | Some options => (List.length options <? 2)%nat
                 | None => true
                 end); [discriminate |].
    destruct (negb (Js.truthy (Js.trim (e_text q)))); [discriminate |].
    apply IH.
Qed.

(** X21: a form the editors let through is never sent back by the server for a
    multiple-choice question with fewer than two options, whether it is
    posted or put. *)
Theorem editor_never_too_few (title description : string)
    (questions : list EditorQuestion) (isActive : bool) (settings : Settings) :
  editorCheck questions = None ->
  (exists body,
      createSubmit title description questions settings = Some body
      /\ forall db user env text,
           fst (createForm db user body env) <> TooFewOptions text)
  /\ (exists body,
         editSubmit title description questions isActive settings = Some body
         /\ forall db id user env text,
              fst (updateForm db id user body env) <> TooFewOptions text).
Proof.
  intros Hcheck. unfold createSubmit, editSubmit. rewrite Hcheck.
  unfold editorCheck in Hcheck.
  destruct (List.length questions =? 0)%nat; [discriminate |].
  destruct (editorLoop_None questions 0 Hcheck) as [Hput Hpost].
  split; eexists; (split; [reflexivity |]).
  - intros db user env text. unfold createForm. simpl.
    destruct (negb (createValid _)); [discriminate |].
    rewrite Hpost.
    destruct (castQuestions env 0 _) as [cast |]; simpl; [| discriminate].
    destruct (Form_save _ _ _ _); simpl; discriminate.
  - intros db id user env text. unfold updateForm. simpl.
    destruct (negb (updateValid _)); [discriminate |].
    destruct (castObjectId id) as [oid |]; simpl; [| discriminate].
    destruct (Form_findOne db oid user) as [form |]; simpl; [| discriminate].
    rewrite Hput.
    destruct (castQuestions env 0 _) as [cast |]; simpl; [| discriminate].
    destruct (Form_save _ _ _ _); simpl; discriminate.
Qed.

Lemma castQuestions_fresh (env : FormEnv) (inputs : list QuestionInput)
    (index : nat) (questions : list Question) :
  Forall (fun input => qi_id input = None) inputs ->
  castQuestions env index inputs = Returned questions ->
  Forall (fun q => exists i, q_id q = newQuestionId env i) questions.
Proof.
  revert index questions. induction inputs as [| input rest IH];
    simpl; intros index questions Hnone.
  - intros [= <-]. constructor.
  - inversion Hnone as [| ? ? Hid Hrest]; subst. rewrite Hid. simpl.
    destruct (castQuestions env (S index) rest) as [tail |] eqn:Htail; simpl;
      [| discriminate].
    intros [= <-]. constructor; [now exists index |].
    now apply (IH (S index)).
Qed.

(** What a successful [PUT /api/forms/:id] with questions went through. *)
Lemma updateForm_questions_inv (db : Db) (id user : string) (body : UpdateBody)
    (env : FormEnv) (form' : Form) (db' : Db) (inputs : list QuestionInput) :
  u_questions body = Some inputs ->
  updateForm db id user body env = (FormUpdated form', db') ->
  castQuestions env 0 inputs = Returned (f_questions form')
  /\ responses db' = responses db.
Proof.
  intros Hq. unfold updateForm. rewrite Hq.
  destruct (negb (updateValid body)); [discriminate |].
  destruct (castObjectId id) as [oid |]; simpl; [| discriminate].
  destruct (Form_findOne db oid user) as [form |]; simpl; [| discriminate].
  destruct (optionsCheck inputs); simpl; [discriminate |].
  destruct (castQuestions env 0 inputs) as [questions |]; simpl; [| discriminate].
  unfold Form_save.
  match goal with |- context [validForm ?d] => destruct (negb (validForm d)) end;
    simpl; [discriminate |].
  intros [= <- <-]. simpl. split; [| reflexivity].
  unfold preSave. simpl.
  now destruct (negb (Js.truthyOpt (f_publicUrl form))).
Qed.

(** X22: the edit page sends the questions without their [_id], so a form saved
    from it has all its questions under new ids: the responses stored so far
    stay in the collection but name none of them, and the summary of the
    saved form counts no answer of theirs. *)
Theorem edit_resets_summary (db : Db) (id user title description : string)
    (drafts : list EditorQuestion) (isActive : bool) (settings : Settings)
    (body : UpdateBody) (env : FormEnv) (form' : Form) (db' : Db) (oid : string) :
  editSubmit title description drafts isActive settings = Some body ->
  updateForm db id user body env = (FormUpdated form', db') ->
  (forall index r a,
      In r (responses db) -> In a (r_answers r) ->
      questionId a <> newQuestionId env index) ->
  responses db' = responses db
  /\ totalResponses (summarize form' (Response_find db' oid))
     = List.length (Response_find db oid)
  /\ Forall (fun s => totalAnswers s = 0 /\ s_answers s = [])
       (questions (summarize form' (Response_find db' oid))).
Proof.
  unfold editSubmit. intros Hbody Hupdate Hfresh.
  destruct (editorCheck drafts); [discriminate |]. injection Hbody as <-.
  pose proof (fun Hq => updateForm_questions_inv db id user _ env form' db'
                          (map asInput drafts) Hq Hupdate) as Hinv.
  destruct (Hinv eq_refl) as [Hcast Hresponses]. clear Hinv.
  assert (Hfind : Response_find db' oid = Response_find db oid).
  { unfold Response_find. now rewrite Hresponses. }
  rewrite Hfind. split; [exact Hresponses |]. split; [reflexivity |].
  assert (Hnew : Forall (fun q => exists i, q_id q = newQuestionId env i)
                   (f_questions form')).
  { apply (castQuestions_fresh env (map asInput drafts) 0); [| exact Hcast].
    apply Forall_forall. intros input Hin. apply in_map_iff in Hin.
    now destruct Hin as [q [<- _]]. }
  unfold summarize, buildSummary. simpl.
  apply Forall_forall. intros s Hs. apply in_map_iff in Hs.
  destruct Hs as [q [<- Hq]]. rewrite Forall_forall in Hnew.
  destruct (Hnew q Hq) as [i Hi].
  rewrite summarizeQuestion_eq. simpl.
  assert (Hnone : counted q (Response_find db oid) = []).
  { unfold counted, Response_find.
    assert (Hsub : forall r, In r (filter (fun r => r_form r =? oid) (responses db))
                             -> In r (responses db)).
    { intros r Hr. now apply filter_In in Hr. }
    induction (filter (fun r => r_form r =? oid) (responses db)) as [| r tail IHt];
      simpl; [reflexivity |].
    rewrite IHt by (intros r' Hr'; apply Hsub; now right).
    unfold findStoredAnswer.
    destruct (find (fun a => questionId a =? q_id q) (r_answers r)) as [a |] eqn:Ha;
      [| reflexivity].
    apply find_some in Ha. destruct Ha as [Hin Heq]. apply String.eqb_eq in Heq.
    exfalso. apply (Hfresh i r a); [apply Hsub; now left | exact Hin | congruence]. }
  rewrite Hnone. simpl.
  now destruct (QuestionType_eqb (q_type q) MultipleChoice).
Qed.

Lemma editor_never_too_few_witness :
  map e_type pollSheet = [MultipleChoice; TextQuestion]
  /\ editorCheck pollSheet = None
  /\ (exists body,
         createSubmit "Poll" "" pollSheet (mkSettings false false Light)
         = Some body
         /\ forall db user env text,
              fst (createForm db user body env) <> TooFewOptions text)
  /\ (exists body,
         editSubmit "Poll" "" pollSheet true (mkSettings false false Light)
         = Some body
         /\ forall db id user env text,
              fst (updateForm db id user body env) <> TooFewOptions text).
Proof.
  split; [reflexivity |]. split; [reflexivity |].
  apply (editor_never_too_few "Poll" "" pollSheet true
           (mkSettings false false Light)).
  reflexivity.
Defined.

(** One option short: the editors stop on the toast, and the server sends
    the same list back when it is posted all the same. *)
Example one_option_stopped_twice :
  editorCheck [mkEditorQuestion "Pick one" MultipleChoice (Some ["Yes"]) true 1]
  = Some (FewOptions 0)
  /\ fst (createForm db0 owner
            (mkCreateBody "Poll" None
               [mkQuestionInput None "Pick one" MultipleChoice (Some ["Yes"])
                  (Some true)] None)
            formEnv3)
     = TooFewOptions "Pick one".
Proof. split; reflexivity. Qed.

Lemma edit_resets_summary_witness :
  editSubmit "Visit" "" sheet true (mkSettings false false Light) = Some sheetBody
  /\ updateForm db1 formA owner sheetBody formEnv2
     = (FormUpdated formEdited, dbEdited)
  /\ responses dbEdited = responses db1
  /\ totalResponses (summarize formEdited (Response_find dbEdited formA))
     = List.length (Response_find db1 formA)
  /\ Forall (fun s => totalAnswers s = 0 /\ s_answers s = [])
       (questions (summarize formEdited (Response_find dbEdited formA))).
Proof.
  assert (Hbody : editSubmit "Visit" "" sheet true (mkSettings false false Light)
                  = Some sheetBody) by reflexivity.
  assert (Hupdate : updateForm db1 formA owner sheetBody formEnv2
                    = (FormUpdated formEdited, dbEdited)).
  { vm_compute. reflexivity. }
  assert (Hfresh : forall index r a,
             In r (responses db1) -> In a (r_answers r) ->
             questionId a <> newQuestionId formEnv2 index).
  { intros index r a Hr Ha. vm_compute in Hr. destruct Hr as [<- | []].
    vm_compute in Ha. destruct Ha as [<- | [<- | []]]; vm_compute;
      intros H; discriminate H. }
  split; [exact Hbody |]. split; [exact Hupdate |].
  exact (edit_resets_summary db1 formA owner "Visit" "" sheet true
           (mkSettings false false Light) sheetBody formEnv2 formEdited dbEdited
           formA Hbody Hupdate Hfresh).
Defined.

(* ================================================================== *)
(** * One response each, over time *)




Section OneResponseEach.

Variable isEmail : string -> bool.
Variable normalizeEmail : string -> string.




End OneResponseEach.

